(** * NDMI calculator: a shallow embedding of [src/ndmi_calculator.py]
      and of its earlier variant [src/NDMI.py]

    The two scripts are thin orchestration over rioxarray, geopandas,
    pystac_client and matplotlib.  Those libraries are not part of the
    repository: they are gathered in the record [Libs] and every definition
    below is parametric in it.  What the scripts themselves do (the asset
    check, the order of the raster calls, the band algebra, the fallback
    search, the per-item [try]/[except], the file name, the argument
    handling) is written out.

    Effects are explicit: a computation is a function from a [World] (the
    chronological trace of library calls and prints, and the files written
    so far) to a result or a raised exception together with the new world. *)

From Stdlib Require Import QArith Qabs Qround Lqa Ascii String SpecFloat.
From stdpp Require Import gmap strings list pretty.

Local Open Scope string_scope.
Local Open Scope list_scope.

(** ** Pixel values

    [open_rasterio(..., masked=True)] yields floating-point arrays in which
    no-data is NaN.  A pixel is modelled as an extended rational: the IEEE 754
    special values are kept and follow the IEEE rules ([x/0] is an infinity,
    [0/0] and [inf - inf] are NaN, NaN propagates); the rounding of finite
    results is abstracted away, finite results are exact and kept in lowest
    terms.  Zero is unsigned: in [(nir - swir) / (nir + swir)] a zero
    denominator with a non-zero numerator is always [x + (-x)], which IEEE
    rounds to +0. *)

Inductive pixel : Type :=
| Num (q : Q)
| Inf (neg : bool)
| NaN.

Definition Qneg_bool (q : Q) : bool := negb (Qle_bool 0 q).
Definition Qzero_bool (q : Q) : bool := Qeq_bool q 0.

Definition popp (a : pixel) : pixel :=
  match a with
  | Num q => Num (Qred (- q))
  | Inf s => Inf (negb s)
  | NaN => NaN
  end.

Definition padd (a b : pixel) : pixel :=
  match a, b with
  | NaN, _ | _, NaN => NaN
  | Num x, Num y => Num (Qred (x + y))
  | Inf s, Num _ | Num _, Inf s => Inf s
  | Inf s, Inf t => if Bool.eqb s t then Inf s else NaN
  end.

Definition psub (a b : pixel) : pixel := padd a (popp b).

Definition pdiv (a b : pixel) : pixel :=
  match a, b with
  | NaN, _ | _, NaN => NaN
  | Num x, Num y =>
      if Qzero_bool y
      then (if Qzero_bool x then NaN else Inf (Qneg_bool x))
      else Num (Qred (x / y))
  | Num _, Inf _ => Num 0
  | Inf s, Num y => Inf (xorb s (Qneg_bool y))
  | Inf _, Inf _ => NaN
  end.

Definition is_nan (a : pixel) : bool :=
  match a with NaN => true | _ => false end.

(** The per-pixel formula of [calculate_ndmi]:
    [(nir - red) / (nir + red)], where [red] holds the SWIR band. *)
Definition ndmi_pixel (nir swir : pixel) : pixel :=
  pdiv (psub nir swir) (padd nir swir).

(** The same formula in IEEE 754 arithmetic, round to nearest even, for a
    format of precision [prec] and exponent bound [emax] (24 and 128 for
    binary32, 53 and 1024 for binary64); used to compare the abstraction
    with the rounded arithmetic on concrete values. *)
Definition ieee_of_Z (prec emax : Z) (z : Z) : spec_float :=
  binary_normalize prec emax z 0 false.

Definition ieee_ndmi (prec emax : Z) (nir swir : spec_float) : spec_float :=
  SFdiv prec emax (SFsub prec emax nir swir) (SFadd prec emax nir swir).

(** The value of a float as a pixel of the model. *)
Definition pixel_of_ieee (x : spec_float) : pixel :=
  match x with
  | S754_zero _ => Num 0
  | S754_infinity s => Inf s
  | S754_nan => NaN
  | S754_finite s m e =>
      Num (Qred ((if s then -1 else 1) * inject_Z (Z.pos m) * Qpower 2 e))
  end.


(** ** Rasters

    A [DataArray] is a shape with its values in row-major order, plus the
    CRS that the [rio] accessor reports ([None] when the raster has none).
    Rasters opened by [open_rasterio] have the dimensions (band, y, x). *)

Definition CRS := string.

Record DataArray : Type := {
  da_crs : option CRS;
  da_shape : list nat;
  da_values : list pixel
}.

(** Binary arithmetic of two arrays on one grid: elementwise; the
    coordinates, hence the CRS, are those of the left operand.  (For arrays
    on different grids xarray first aligns them by coordinate label; the
    model pairs the values positionally.) *)
Definition xr_binop (f : pixel -> pixel -> pixel) (a b : DataArray) : DataArray :=
  {| da_crs := da_crs a;
     da_shape := da_shape a;
     da_values := zip_with f (da_values a) (da_values b) |}.

Definition xr_sub := xr_binop psub.
Definition xr_add := xr_binop padd.
Definition xr_div := xr_binop pdiv.

(** [da.rio.count]: the size of the band dimension, 1 for a 2-D array. *)
Definition rio_count (a : DataArray) : nat :=
  match da_shape a with
  | [b; _; _] => b
  | _ => 1%nat
  end.

(** [da.squeeze()]: drop every dimension of length one; values unchanged. *)
Definition squeeze (a : DataArray) : DataArray :=
  {| da_crs := da_crs a;
     da_shape := filter (fun n => n ≠ 1%nat) (da_shape a);
     da_values := da_values a |}.

(** [da.mean()] on a floating-point array skips NaN ([skipna] defaults to
    true for floats): the sum of the remaining values over their count.  An
    array without any non-NaN value gives [0/0], that is NaN. *)
Definition not_nan_values (a : DataArray) : list pixel :=
  filter (fun p => is_nan p = false) (da_values a).

Definition psum (l : list pixel) : pixel := foldr padd (Num 0) l.

Definition xr_mean (a : DataArray) : pixel :=
  let vs := not_nan_values a in
  pdiv (psum vs) (Num (inject_Z (Z.of_nat (length vs)))).

(** ** Catalog items, parcels, exceptions *)

(** A JSON value as the scripts meet it: a string, or something else on
    which a string method fails. *)
Inductive pyval : Type :=
| PyStr (s : string)
| PyNone.

Record Asset : Type := { href : string }.

Record Item : Type := {
  item_id : string;
  assets : gmap string Asset;
  properties : gmap string pyval
}.

Definition Geometry := list (Q * Q).
Definition BBox := (Q * Q * Q * Q)%type.

Record GeoDataFrame : Type := {
  gdf_crs : option CRS;
  gdf_geometry : list Geometry
}.

Inductive exn_kind : Type :=
| ValueError | KeyError | AttributeError | LibraryError.

(** A raised [Exception]; [exn_msg] is [str(e)]. *)
Record Exception : Type := {
  exn_kind_of : exn_kind;
  exn_msg : string
}.

Inductive result (A : Type) : Type :=
| Ok (a : A)
| Raise (e : Exception).
Arguments Ok {A} a.
Arguments Raise {A} e.

Record Client : Type := { client_url : string }.

(** The catalog query built by [load_and_search_data]. *)
Record Query : Type := {
  q_collections : list string;
  q_bbox : BBox;
  q_datetime : string;
  (** the [query] dictionary: property name, then operator and operand *)
  q_query : list (string * list (string * Z))
}.

(** What [plot_and_save_ndmi] puts on the figure. *)
Record Figure : Type := {
  fig_data : DataArray;
  fig_cmap : string;
  fig_vmin : Z;
  fig_vmax : Z;
  fig_cbar_label : string;
  fig_cbar_shrink : option Q;
  fig_cbar_ticks : list Q;
  fig_xticks : option (list Q);
  fig_yticks : option (list Q);
  fig_title : string
}.

(** ** The world *)

Inductive Event : Type :=
| EvClientOpen (url : string)
| EvReadFile (path : string)
| EvSearch (q : Query)
| EvOpenRaster (uri : string)
| EvGdfToCrs (crs : option CRS)
| EvClip (band : DataArray)
| EvReprojectMatch (band target : DataArray)
| EvPrint (line : string)
| EvSaveFig (path : string)
| EvOpenConfig (path : string).

Record World : Type := {
  w_trace : list Event;
  w_files : gmap string Figure
}.

Definition M (A : Type) : Type := World -> result A * World.

Definition ret {A} (a : A) : M A := fun w => (Ok a, w).
Definition raise {A} (e : Exception) : M A := fun w => (Raise e, w).
Definition bind {A B} (m : M A) (k : A -> M B) : M B :=
  fun w => match m w with
           | (Ok a, w') => k a w'
           | (Raise e, w') => (Raise e, w')
           end.

(** [try: body except Exception as e: handler e] *)
Definition try_except {A} (body : M A) (handler : Exception -> M A) : M A :=
  fun w => match body w with
           | (Ok a, w') => (Ok a, w')
           | (Raise e, w') => handler e w'
           end.

#[export] Instance M_ret : MRet M := @ret.
#[export] Instance M_bind : MBind M := fun A B k m => bind m k.

Definition emit (e : Event) : M unit :=
  fun w => (Ok tt, {| w_trace := w_trace w ++ [e]; w_files := w_files w |}).

Definition write_file (path : string) (f : Figure) : M unit :=
  fun w => (Ok tt, {| w_trace := w_trace w; w_files := <[path := f]> (w_files w) |}).

(** A library call: logged first, then it returns or raises. *)
Definition call {A} (e : Event) (r : result A) : M A :=
  emit e;; (fun w => (r, w)).

Definition print (line : string) : M unit := emit (EvPrint line).

(** ** The libraries the scripts call *)

Record Libs : Type := {
  (** [rioxarray.open_rasterio(uri, masked=True)] *)
  open_rasterio : string -> result DataArray;
  (** [band.rio.clip(geometries, crs)] *)
  rio_clip : DataArray -> list Geometry -> option CRS -> result DataArray;
  (** [band.rio.reproject_match(target)] *)
  rio_reproject_match : DataArray -> DataArray -> result DataArray;
  (** [gdf.to_crs(crs)] *)
  gdf_to_crs : GeoDataFrame -> option CRS -> result GeoDataFrame;
  (** [gpd.read_file(path)] *)
  gpd_read_file : string -> result GeoDataFrame;
  (** [geometry.bounds] *)
  geom_bounds : Geometry -> BBox;
  (** [Client.open(url)] *)
  client_open : string -> result Client;
  (** [client.search(...).item_collection()] *)
  client_search : Client -> Query -> result (list Item);
  (** [datetime.utcnow().strftime('%Y-%m-%d')] *)
  utcnow_ymd : string;
  (** [f"{x:.2f}"] *)
  format_2f : pixel -> string;
  (** [ax.imshow(data, ...)]: [Some e] when it raises *)
  ax_imshow : DataArray -> option Exception;
  (** [plt.savefig(path)]: [Some e] when it raises *)
  plt_savefig : string -> Figure -> option Exception;
  (** [with open(path) as f: json.load(f)], for a JSON object *)
  json_load_file : string -> result (gmap string pyval)
}.

(** [str.split(sep)[0]] for a one-character separator: the text before its
    first occurrence, all of the text when it does not occur. *)
Fixpoint split_first (sep : ascii) (s : string) : string :=
  match s with
  | EmptyString => EmptyString
  | String c rest =>
      if Ascii.eqb c sep then EmptyString else String c (split_first sep rest)
  end.

(** [needle in haystack] *)
Fixpoint is_substring (needle haystack : string) : bool :=
  String.prefix needle haystack
  || match haystack with
     | EmptyString => false
     | String _ rest => is_substring needle rest
     end.

(** [os.path.join(a, b)] (POSIX) *)
Definition ends_with_slash (s : string) : bool :=
  match String.get (String.length s - 1) s with
  | Some c => Ascii.eqb c "/"%char
  | None => false
  end.

Definition os_path_join (a b : string) : string :=
  if String.prefix "/" b then b
  else if (String.eqb a "" || ends_with_slash a)%bool then a +:+ b
  else a +:+ "/" +:+ b.

Definition newline : string := String (ascii_of_nat 10) EmptyString.

(** A library call that returns nothing: [Some e] when it raises. *)
Definition outcome (o : option Exception) : result unit :=
  match o with
  | Some e => Raise e
  | None => Ok tt
  end.

(** ** [src/ndmi_calculator.py] *)

Module NdmiCalculator.
Section WithLibs.
Context (L : Libs).

Definition load_and_search_data (client : Client) (collection : string)
    (bbox : BBox) (start_date end_date : string) (cloud_cover : option Z)
    : M (list Item) :=
  let cloud_cover := default 50%Z cloud_cover in
  let search :=
    {| q_collections := [collection];
       q_bbox := bbox;
       q_datetime := start_date +:+ "/" +:+ end_date;
       q_query := [("eo:cloud_cover", [("lt", cloud_cover)])] |} in
  items ← call (EvSearch search) (client_search L client search);
  mret items.

Definition missing_assets_error (item : Item) : Exception :=
  {| exn_kind_of := ValueError;
     exn_msg := "Item " +:+ item_id item
                +:+ " missing necessary assets (SWIR and NIR)." |}.

(** The two lookups decide the asset check
    ["swir16" not in item.assets or "nir08" not in item.assets] and give
    the assets read right after it. *)
Definition calculate_ndmi (item : Item) (gdf : GeoDataFrame) : M DataArray :=
  match assets item !! "swir16", assets item !! "nir08" with
  | Some swir16, Some nir08 =>
      let SWIR_uri := href swir16 in
      let nir_uri := href nir08 in
      red ← call (EvOpenRaster SWIR_uri) (open_rasterio L SWIR_uri);
      nir ← call (EvOpenRaster nir_uri) (open_rasterio L nir_uri);
      gdf ← call (EvGdfToCrs (da_crs red)) (gdf_to_crs L gdf (da_crs red));
      let geometries := gdf_geometry gdf in
      red_clip ← call (EvClip red) (rio_clip L red geometries (gdf_crs gdf));
      nir_clip ← call (EvClip nir) (rio_clip L nir geometries (gdf_crs gdf));
      red_clip ←
        (if decide (da_crs red_clip ≠ da_crs nir_clip)
         then call (EvReprojectMatch red_clip nir_clip)
                   (rio_reproject_match L red_clip nir_clip)
         else mret red_clip);
      let ndmi := xr_div (xr_sub nir_clip red_clip) (xr_add nir_clip red_clip) in
      let ndmi := if decide (rio_count ndmi = 1%nat) then squeeze ndmi else ndmi in
      mret ndmi
  | _, _ => raise (missing_assets_error item)
  end.

Definition output_file_name (output_path date : string) : string :=
  os_path_join output_path ("ndmi_" +:+ date +:+ ".png").

Definition figure (ndmi : DataArray) (date : string) : Figure :=
  let mean_ndmi := xr_mean ndmi in
  {| fig_data := ndmi;
     fig_cmap := "RdYlGn";
     fig_vmin := (-1)%Z;
     fig_vmax := 1%Z;
     fig_cbar_label := "NDMI";
     fig_cbar_shrink := Some (4 # 10)%Q;
     fig_cbar_ticks := [-(1); -(1 # 2); 0; 1 # 2; 1]%Q;
     fig_xticks := Some [];
     fig_yticks := Some [];
     fig_title := "NDMI - " +:+ date +:+ newline
                  +:+ "Mean NDMI: " +:+ format_2f L mean_ndmi |}.

Definition plot_and_save_ndmi (ndmi : DataArray) (output_path date : string)
    : M unit :=
  (fun w => (outcome (ax_imshow L ndmi), w));;
  let fig := figure ndmi date in
  let output_file := output_file_name output_path date in
  call (EvSaveFig output_file) (outcome (plt_savefig L output_file fig));;
  write_file output_file fig.

(** [item.properties['datetime'].split("T")[0]] *)
Definition item_date_of (item : Item) : M string :=
  match properties item !! "datetime" with
  | Some (PyStr s) => mret (split_first "T" s)
  | Some PyNone =>
      raise {| exn_kind_of := AttributeError;
               exn_msg := "'NoneType' object has no attribute 'split'" |}
  | None => raise {| exn_kind_of := KeyError; exn_msg := "'datetime'" |}
  end.

(** The [try] block of the [for] loop. *)
Definition try_block (gdf : GeoDataFrame) (output_path : string)
    (item : Item) : M unit :=
  ndmi ← calculate_ndmi item gdf;
  item_date ← item_date_of item;
  plot_and_save_ndmi ndmi output_path item_date;;
  print ("NDMI calculated and saved for item " +:+ item_id item
         +:+ " on " +:+ item_date).

Definition error_line (item : Item) (e : Exception) : string :=
  "Error processing item " +:+ item_id item +:+ ": " +:+ exn_msg e.

(** The body of the [for] loop: the [try] block and its handler. *)
Definition process_item (gdf : GeoDataFrame) (output_path : string)
    (item : Item) : M unit :=
  try_except (try_block gdf output_path item)
             (fun e => print (error_line item e)).

Fixpoint for_items (gdf : GeoDataFrame) (output_path : string)
    (items : list Item) : M unit :=
  match items with
  | [] => mret tt
  | item :: rest =>
      process_item gdf output_path item;;
      for_items gdf output_path rest
  end.

(** [gdf.geometry[0].bounds] *)
Definition first_bounds (gdf : GeoDataFrame) : M BBox :=
  match gdf_geometry gdf with
  | g :: _ => mret (geom_bounds L g)
  | [] => raise {| exn_kind_of := KeyError; exn_msg := "0" |}
  end.

(** What [main] does once it holds a non-empty item collection. *)
Definition process_all (gdf : GeoDataFrame) (output_path : string)
    (items : list Item) : M unit :=
  gdf ← call (EvGdfToCrs (Some "EPSG:4326")) (gdf_to_crs L gdf (Some "EPSG:4326"));
  for_items gdf output_path items.

Definition main (geojson_path start_date end_date output_path : string) : M unit :=
  let api_url := "https://earth-search.aws.element84.com/v1" in
  client ← call (EvClientOpen api_url) (client_open L api_url);
  let collection := "sentinel-2-l2a" in
  gdf ← call (EvReadFile geojson_path) (gpd_read_file L geojson_path);
  bbox ← first_bounds gdf;
  items ← load_and_search_data client collection bbox start_date end_date None;
  match items with
  | [] =>
      print "No items found for the given date range. Searching for the latest available imagery.";;
      items ← load_and_search_data client collection bbox
                "2015-06-23" (utcnow_ymd L) None;
      match items with
      | [] => print "No Sentinel-2 data found."
      | _ :: _ => process_all gdf output_path items
      end
  | _ :: _ => process_all gdf output_path items
  end.

(** *** The [__main__] block *)

(** The namespace [parser.parse_args()] returns: every option is
    optional and defaults to [None]. *)
Record Namespace : Type := {
  ns_config : option string;
  ns_geojson_path : option string;
  ns_start_date : option string;
  ns_end_date : option string;
  ns_output_path : option string
}.

Definition empty_namespace : Namespace :=
  {| ns_config := None; ns_geojson_path := None; ns_start_date := None;
     ns_end_date := None; ns_output_path := None |}.

Definition set_option (name value : string) (ns : Namespace) : option Namespace :=
  if String.eqb name "--config" then
    Some {| ns_config := Some value; ns_geojson_path := ns_geojson_path ns;
            ns_start_date := ns_start_date ns; ns_end_date := ns_end_date ns;
            ns_output_path := ns_output_path ns |}
  else if String.eqb name "--geojson_path" then
    Some {| ns_config := ns_config ns; ns_geojson_path := Some value;
            ns_start_date := ns_start_date ns; ns_end_date := ns_end_date ns;
            ns_output_path := ns_output_path ns |}
  else if String.eqb name "--start_date" then
    Some {| ns_config := ns_config ns; ns_geojson_path := ns_geojson_path ns;
            ns_start_date := Some value; ns_end_date := ns_end_date ns;
            ns_output_path := ns_output_path ns |}
  else if String.eqb name "--end_date" then
    Some {| ns_config := ns_config ns; ns_geojson_path := ns_geojson_path ns;
            ns_start_date := ns_start_date ns; ns_end_date := Some value;
            ns_output_path := ns_output_path ns |}
  else if String.eqb name "--output_path" then
    Some {| ns_config := ns_config ns; ns_geojson_path := ns_geojson_path ns;
            ns_start_date := ns_start_date ns; ns_end_date := ns_end_date ns;
            ns_output_path := Some value |}
  else None.

(** [parse_args] on a command line made of [--name value] pairs with the
    five declared names written in full and values that do not start
    with a dash.  The other forms argparse knows (abbreviated names,
    [--name=value], [-h]) and its usage errors are not modelled: [None]. *)
Fixpoint parse_args_from (argv : list string) (ns : Namespace) : option Namespace :=
  match argv with
  | [] => Some ns
  | name :: value :: rest =>
      if String.prefix "-" value then None
      else match set_option name value ns with
           | Some ns' => parse_args_from rest ns'
           | None => None
           end
  | [_] => None
  end.

Definition parse_args (argv : list string) : option Namespace :=
  parse_args_from argv empty_namespace.

(** The four arguments [main] is called with; a key missing from the
    config file reaches [main] as [None]. *)
Record MainCall : Type := {
  mc_geojson_path : pyval;
  mc_start_date : pyval;
  mc_end_date : pyval;
  mc_output_path : pyval
}.

(** [config.get(key)] *)
Definition config_get (config : gmap string pyval) (key : string) : pyval :=
  default PyNone (config !! key).

(** [if args.config:] an absent or empty value is false. *)
Definition truthy (o : option string) : bool :=
  match o with
  | Some s => negb (String.eqb s "")
  | None => false
  end.

Definition main_arguments (args : Namespace) : M MainCall :=
  if truthy (ns_config args) then
    let path := default "" (ns_config args) in
    config ← call (EvOpenConfig path) (json_load_file L path);
    mret {| mc_geojson_path := config_get config "geojson_path";
            mc_start_date := config_get config "start_date";
            mc_end_date := config_get config "end_date";
            mc_output_path := config_get config "output_path" |}
  else
    mret {| mc_geojson_path :=
              PyStr "/home/nandanaa/Projects/NDMI-Calculator/data/farm_p.geojson";
            mc_start_date := PyStr "2024-07-16";
            mc_end_date := PyStr "2024-08-02";
            mc_output_path :=
              PyStr "/home/nandanaa/Projects/NDMI-Calculator/Output/" |}.

(** The call [main(geojson_path, start_date, end_date, output_path)] for
    string arguments; what [main] does with a [None] depends on the
    libraries and is left out. *)
Definition call_main (c : MainCall) : option (M unit) :=
  match mc_geojson_path c, mc_start_date c, mc_end_date c, mc_output_path c with
  | PyStr g, PyStr s, PyStr e, PyStr o => Some (main g s e o)
  | _, _, _, _ => None
  end.

End WithLibs.
End NdmiCalculator.

(** ** [src/NDMI.py], the earlier variant *)

Module NDMI.
Section WithLibs.
Context (L : Libs).

Definition load_and_search_data (client : Client) (collection : string)
    (bbox : BBox) (start_date end_date : string) (cloud_cover : option Z)
    : M (list Item) :=
  let cloud_cover := default 50%Z cloud_cover in
  let search :=
    {| q_collections := [collection];
       q_bbox := bbox;
       q_datetime := start_date +:+ "/" +:+ end_date;
       q_query := [("eo:cloud_cover", [("lt", cloud_cover)])] |} in
  items ← call (EvSearch search) (client_search L client search);
  mret items.

Definition missing_assets_error (item : Item) : Exception :=
  {| exn_kind_of := ValueError;
     exn_msg := "Item " +:+ item_id item
                +:+ " missing necessary assets (SWIR and NIR)." |}.

(** The two lookups decide the asset check
    ["swir16" not in item.assets or "nir08" not in item.assets] and give
    the assets read right after it. *)
Definition calculate_ndmi (item : Item) (gdf : GeoDataFrame) : M DataArray :=
  match assets item !! "swir16", assets item !! "nir08" with
  | Some swir16, Some nir08 =>
      let SWIR_uri := href swir16 in
      let nir_uri := href nir08 in
      red ← call (EvOpenRaster SWIR_uri) (open_rasterio L SWIR_uri);
      nir ← call (EvOpenRaster nir_uri) (open_rasterio L nir_uri);
      red_clip ← call (EvClip red) (rio_clip L red (gdf_geometry gdf) (gdf_crs gdf));
      nir_clip ← call (EvClip nir) (rio_clip L nir (gdf_geometry gdf) (gdf_crs gdf));
      red_clip ←
        (if decide (da_crs red_clip ≠ da_crs nir_clip)
         then call (EvReprojectMatch red_clip nir_clip)
                   (rio_reproject_match L red_clip nir_clip)
         else mret red_clip);
      let ndmi := xr_div (xr_sub nir_clip red_clip) (xr_add nir_clip red_clip) in
      let ndmi := if decide (rio_count ndmi = 1%nat) then squeeze ndmi else ndmi in
      mret ndmi
  | _, _ => raise (missing_assets_error item)
  end.

Definition figure (ndmi : DataArray) : Figure :=
  {| fig_data := ndmi;
     fig_cmap := "RdYlGn";
     fig_vmin := (-1)%Z;
     fig_vmax := 1%Z;
     fig_cbar_label := "NDMI";
     fig_cbar_shrink := None;
     fig_cbar_ticks := [-(1); -(1 # 2); 0; 1 # 2; 1]%Q;
     fig_xticks := None;
     fig_yticks := None;
     fig_title := "NDMI" |}.

Definition plot_and_save_ndmi (ndmi : DataArray) (output_path : string) : M unit :=
  (fun w => (outcome (ax_imshow L ndmi), w));;
  let fig := figure ndmi in
  call (EvSaveFig output_path) (outcome (plt_savefig L output_path fig));;
  write_file output_path fig.

(** The body of the [for] loop; [true] when it ends in [break]. *)
Definition process_item (gdf : GeoDataFrame) (output_path : string)
    (item : Item) : M bool :=
  try_except
    (ndmi ← calculate_ndmi item gdf;
     plot_and_save_ndmi ndmi output_path;;
     print ("NDMI calculated and saved for item " +:+ item_id item);;
     mret true)
    (fun e =>
       print ("Error processing item " +:+ item_id item +:+ ": " +:+ exn_msg e);;
       mret false).

Fixpoint for_items (gdf : GeoDataFrame) (output_path : string)
    (items : list Item) : M unit :=
  match items with
  | [] => mret tt
  | item :: rest =>
      stop ← process_item gdf output_path item;
      if stop : bool then mret tt else for_items gdf output_path rest
  end.

Definition first_bounds (gdf : GeoDataFrame) : M BBox :=
  match gdf_geometry gdf with
  | g :: _ => mret (geom_bounds L g)
  | [] => raise {| exn_kind_of := KeyError; exn_msg := "0" |}
  end.

Definition main (geojson_path start_date end_date output_path : string) : M unit :=
  let api_url := "https://earth-search.aws.element84.com/v1" in
  client ← call (EvClientOpen api_url) (client_open L api_url);
  let collection := "sentinel-2-l2a" in
  gdf ← call (EvReadFile geojson_path) (gpd_read_file L geojson_path);
  bbox ← first_bounds gdf;
  items ← load_and_search_data client collection bbox start_date end_date None;
  match items with
  | [] => print "No items found for the given date range."
  | _ :: _ =>
      gdf ← call (EvGdfToCrs (Some "EPSG:4326")) (gdf_to_crs L gdf (Some "EPSG:4326"));
      for_items gdf output_path items
  end.

(** The [__main__] block: four positional arguments, handed to [main] as
    they are.  Command lines of another shape are not modelled. *)
Definition script (argv : list string) : option (M unit) :=
  match argv with
  | [geojson_path; start_date; end_date; output_path] =>
      if (String.prefix "-" geojson_path || String.prefix "-" start_date
          || String.prefix "-" end_date || String.prefix "-" output_path)%bool
      then None
      else Some (main geojson_path start_date end_date output_path)
  | _ => None
  end.

End WithLibs.
End NDMI.

(** ** A small concrete environment

    Two 2x2 single-band rasters with constant values, a catalog given as a
    function, and a clock.  It is used to run the definitions above on
    concrete inputs. *)

Module Demo.

Definition utm : CRS := "EPSG:32643".
Definition swir_uri : string := "s3://sentinel/S2/B11.tif".
Definition nir_uri : string := "s3://sentinel/S2/B8A.tif".

Definition band (crs : CRS) (v : Q) : DataArray :=
  {| da_crs := Some crs;
     da_shape := [1; 2; 2]%nat;
     da_values := replicate 4 (Num v) |}.

Definition not_a_raster : Exception :=
  {| exn_kind_of := LibraryError;
     exn_msg := "not recognized as a supported file format" |}.

(** The SWIR raster is stored in [swir_crs], the NIR raster in [utm]. *)
Definition open_band (swir_crs : CRS) (uri : string) : result DataArray :=
  if String.eqb uri swir_uri then Ok (band swir_crs 100)
  else if String.eqb uri nir_uri then Ok (band utm 200)
  else Raise not_a_raster.

Definition reproject_match (a target : DataArray) : result DataArray :=
  Ok {| da_crs := da_crs target;
        da_shape := da_shape target;
        da_values := da_values a |}.

Definition to_crs (gdf : GeoDataFrame) (crs : option CRS) : result GeoDataFrame :=
  Ok {| gdf_crs := crs; gdf_geometry := gdf_geometry gdf |}.

Definition farm : GeoDataFrame :=
  {| gdf_crs := Some "EPSG:4326";
     gdf_geometry := [[(77 # 1, 28 # 1); (78 # 1, 28 # 1); (78 # 1, 29 # 1)]%Q] |}.

Definition two_decimals (p : pixel) : string :=
  match p with
  | NaN => "nan"
  | Inf true => "-inf"
  | Inf false => "inf"
  | Num q =>
      let cents := Qfloor (q * 100 + (1 # 2)) in
      let frac := (Z.abs cents mod 100)%Z in
      (if (cents <? 0)%Z then "-" else "")
      +:+ pretty (Z.abs cents / 100)%Z +:+ "."
      +:+ (if (frac <? 10)%Z then "0" else "") +:+ pretty frac
  end.

Definition libs (swir_crs : CRS) (catalog : Query -> result (list Item)) : Libs :=
  {| open_rasterio := open_band swir_crs;
     rio_clip := fun band _ _ => Ok band;
     rio_reproject_match := reproject_match;
     gdf_to_crs := to_crs;
     gpd_read_file := fun _ => Ok farm;
     geom_bounds := fun _ => (77 # 1, 28 # 1, 78 # 1, 29 # 1)%Q;
     client_open := fun url => Ok {| client_url := url |};
     client_search := fun _ q => catalog q;
     utcnow_ymd := "2026-11-04";
     format_2f := two_decimals;
     ax_imshow := fun _ => None;
     plt_savefig := fun _ _ => None;
     json_load_file := fun _ => Ok ∅ |}.

Definition scene (id datetime : string) : Item :=
  {| item_id := id;
     assets := <["swir16" := {| href := swir_uri |}]>
                 (<["nir08" := {| href := nir_uri |}]> ∅);
     properties := <["datetime" := PyStr datetime]> ∅ |}.

(** A scene that carries SWIR but no NIR asset. *)
Definition scene_without_nir (id datetime : string) : Item :=
  {| item_id := id;
     assets := <["swir16" := {| href := swir_uri |}]> ∅;
     properties := <["datetime" := PyStr datetime]> ∅ |}.

(** A scene that carries NIR but no SWIR asset. *)
Definition scene_without_swir (id datetime : string) : Item :=
  {| item_id := id;
     assets := <["nir08" := {| href := nir_uri |}]> ∅;
     properties := <["datetime" := PyStr datetime]> ∅ |}.

Definition empty_catalog (q : Query) : result (list Item) := Ok [].

Definition world0 : World := {| w_trace := []; w_files := ∅ |}.

Definition unreachable : Exception :=
  {| exn_kind_of := LibraryError; exn_msg := "Connection refused" |}.

(** A catalog that cannot be reached. *)
Definition failing_catalog (q : Query) : result (list Item) := Raise unreachable.

(** A catalog that holds two scenes of one day and one of another day,
    whatever the query. *)
Definition july_catalog (q : Query) : result (list Item) :=
  Ok [scene "S2A_43RGM_0" "2024-07-20T05:36:41Z";
      scene_without_nir "S2B_43RGM_0" "2024-07-22T05:36:39Z";
      scene "S2B_43RGM_1" "2024-07-25T05:36:39Z"].

End Demo.

(** ** Vocabulary of the statements *)

(** The world after one more logged event. *)
Definition log (w : World) (e : Event) : World :=
  {| w_trace := w_trace w ++ [e]; w_files := w_files w |}.

Definition logs (w : World) (es : list Event) : World :=
  {| w_trace := w_trace w ++ es; w_files := w_files w |}.

(** The catalog queries of a trace, in order. *)
Definition searches (t : list Event) : list Query :=
  omap (fun e => match e with EvSearch q => Some q | _ => None end) t.

(** The raster URIs opened in a trace, in order. *)
Definition fetches (t : list Event) : list string :=
  omap (fun e => match e with EvOpenRaster u => Some u | _ => None end) t.

(** The paths handed to [savefig] in a trace, in order. *)
Definition saves (t : list Event) : list string :=
  omap (fun e => match e with EvSaveFig p => Some p | _ => None end) t.

(** The band-to-band reprojections of a trace, in order. *)
Definition reprojections (t : list Event) : list (DataArray * DataArray) :=
  omap (fun e => match e with EvReprojectMatch a b => Some (a, b) | _ => None end) t.

(** The last step of [calculate_ndmi]: a single-band result is squeezed. *)
Definition squeezed (ndmi : DataArray) : DataArray :=
  if decide (rio_count ndmi = 1%nat) then squeeze ndmi else ndmi.

(** The date label [main] derives from an item, when it has one. *)
Definition date_label (item : Item) : option string :=
  match properties item !! "datetime" with
  | Some (PyStr s) => Some (split_first "T" s)
  | _ => None
  end.

(** The SWIR band brought to the CRS of the NIR band: the clipped band
    itself when the two CRSs agree, its [reproject_match] otherwise. *)
Definition aligned_swir (L : Libs) (red_clip nir_clip : DataArray) : result DataArray :=
  if decide (da_crs red_clip ≠ da_crs nir_clip)
  then rio_reproject_match L red_clip nir_clip
  else Ok red_clip.

(** [m] relates every world it starts in to the world it ends in, also
    when it raises. *)
Definition preserves (R : relation World) {A} (m : M A) : Prop :=
  forall w : World, R w (m w).2.

(** The trace only grows, by events that satisfy [P]. *)
Definition trace_grows (P : Event -> Prop) (w w' : World) : Prop :=
  exists es : list Event, w_trace w' = w_trace w ++ es /\ Forall P es.

(** Files are only written at paths of [S]. *)
Definition files_within (S : gset string) (w w' : World) : Prop :=
  dom (w_files w') ⊆ dom (w_files w) ∪ S.

(** No file is written. *)
Definition files_kept (w w' : World) : Prop := w_files w' = w_files w.

Definition not_search (e : Event) : Prop :=
  match e with EvSearch _ => False | _ => True end.

(** The cloud-cover filter of the two searches of [main]. *)
Definition cloud_cover_below_50 : list (string * list (string * Z)) :=
  [("eo:cloud_cover", [("lt", 50%Z)])].

(** The first search of [main] and its fallback. *)
Definition initial_query (bbox : BBox) (start_date end_date : string) : Query :=
  {| q_collections := ["sentinel-2-l2a"];
     q_bbox := bbox;
     q_datetime := start_date +:+ "/" +:+ end_date;
     q_query := cloud_cover_below_50 |}.

Definition fallback_query (L : Libs) (bbox : BBox) : Query :=
  {| q_collections := ["sentinel-2-l2a"];
     q_bbox := bbox;
     q_datetime := "2015-06-23/" +:+ utcnow_ymd L;
     q_query := cloud_cover_below_50 |}.

Definition api_url : string := "https://earth-search.aws.element84.com/v1".

Definition searching_latest : string :=
  "No items found for the given date range. Searching for the latest available imagery.".

(** The output paths a list of scenes can be written to. *)
Definition output_files (output_path : string) (items : list Item) : gset string :=
  list_to_set (NdmiCalculator.output_file_name output_path <$> omap date_label items).

(** A pixel that holds a number. *)
Definition finite (a : pixel) : Prop :=
  match a with Num _ => True | _ => False end.

(** The lines printed in a trace, in order. *)
Definition prints (t : list Event) : list string :=
  omap (fun e => match e with EvPrint line => Some line | _ => None end) t.

Definition not_print (e : Event) : Prop :=
  match e with EvPrint _ => False | _ => True end.

(** The line the loop of [main] prints for a scene: success with the
    scene's date label, or the error line with the exception's message. *)
Definition status_line (item : Item) (line : string) : Prop :=
  (exists d : string,
     date_label item = Some d
     /\ line = "NDMI calculated and saved for item " +:+ item_id item
               +:+ " on " +:+ d)
  \/ (exists msg : string,
        line = "Error processing item " +:+ item_id item +:+ ": " +:+ msg).

(** Only files whose name satisfies [P] were created or replaced. *)
Definition files_named (P : string -> Prop) (w w' : World) : Prop :=
  forall p : string, ~ P p -> w_files w' !! p = w_files w !! p.

(** A path of the form [os.path.join(output_path, "ndmi_<date>.png")]. *)
Definition ndmi_png (output_path : string) (p : string) : Prop :=
  exists d : string, p = os_path_join output_path ("ndmi_" +:+ d +:+ ".png").

(** * Theorems *)

Example demo_format : Demo.two_decimals (Num (1 # 3)) = "0.33".
Proof. vm_compute. reflexivity. Qed.

Example demo_ndmi :
  fst (NdmiCalculator.calculate_ndmi (Demo.libs Demo.utm Demo.empty_catalog)
         (Demo.scene "S2A" "2024-07-20T05:36:41Z") Demo.farm Demo.world0)
  = Ok {| da_crs := Some Demo.utm; da_shape := [2;2]%nat;
          da_values := replicate 4 (Num (1 # 3)) |}.
Proof. vm_compute. reflexivity. Qed.

(** ** Running computations *)

Lemma bind_run {A B} (m : M A) (k : A -> M B) (w : World) :
  (m ≫= k) w = match m w with
               | (Ok a, w') => k a w'
               | (Raise e, w') => (Raise e, w')
               end.
Proof. reflexivity. Qed.

Lemma call_run {A} (e : Event) (r : result A) (w : World) :
  call e r w = (r, log w e).
Proof. unfold call. rewrite bind_run. reflexivity. Qed.

Lemma print_run (line : string) (w : World) :
  print line w = (Ok tt, log w (EvPrint line)).
Proof. reflexivity. Qed.

Lemma logs_nil (w : World) : logs w [] = w.
Proof. destruct w. unfold logs. simpl. by rewrite app_nil_r. Qed.

Lemma log_logs (w : World) (es : list Event) (e : Event) :
  log (logs w es) e = logs w (es ++ [e]).
Proof. unfold log, logs. simpl. by rewrite <- app_assoc. Qed.

Lemma log_as_logs (w : World) (e : Event) : log w e = logs w [e].
Proof. reflexivity. Qed.

Lemma logs_logs (w : World) (es fs : list Event) :
  logs (logs w es) fs = logs w (es ++ fs).
Proof. unfold logs. simpl. by rewrite <- app_assoc. Qed.

Ltac norm_logs := rewrite ?log_as_logs, ?logs_logs; cbn [app].

(** ** The band algebra *)

Lemma ndmi_values (nir red : DataArray) :
  da_values (xr_div (xr_sub nir red) (xr_add nir red))
  = zip_with ndmi_pixel (da_values nir) (da_values red).
Proof.
  unfold xr_div, xr_sub, xr_add, xr_binop. simpl.
  generalize (da_values red). induction (da_values nir) as [|n ns IH]; intros [|s ss];
    simpl; try reflexivity.
  f_equal. apply IH.
Qed.

Lemma squeezed_values (a : DataArray) : da_values (squeezed a) = da_values a.
Proof. unfold squeezed. case_decide; reflexivity. Qed.

Lemma ndmi_pixel_200_100 : ndmi_pixel (Num 200) (Num 100) = Num (1 # 3).
Proof. vm_compute. reflexivity. Qed.

Lemma zip_with_constant (f : pixel -> pixel -> pixel) (a b : pixel) (xs ys : list pixel) :
  Forall (eq a) xs -> Forall (eq b) ys -> Forall (eq (f a b)) (zip_with f xs ys).
Proof.
  intros Hx. revert ys. induction Hx as [|x xs <- _ IH]; intros ys Hy; simpl.
  - constructor.
  - destruct Hy as [|y ys <- Hy]; constructor; [reflexivity | by apply IH].
Qed.

Ltac step :=
  rewrite bind_run; first [rewrite call_run | rewrite print_run | idtac].



(** The same holds for the earlier variant, which clips with the parcel as
    it is handed in. *)
Lemma NDMI_calculate_ndmi_normalized_difference
    (L : Libs) (item : Item) (gdf : GeoDataFrame) (w : World)
    (swir16 nir08 : Asset) (red nir red_clip nir_clip red_al : DataArray) :
  assets item !! "swir16" = Some swir16 ->
  assets item !! "nir08" = Some nir08 ->
  open_rasterio L (href swir16) = Ok red ->
  open_rasterio L (href nir08) = Ok nir ->
  rio_clip L red (gdf_geometry gdf) (gdf_crs gdf) = Ok red_clip ->
  rio_clip L nir (gdf_geometry gdf) (gdf_crs gdf) = Ok nir_clip ->
  aligned_swir L red_clip nir_clip = Ok red_al ->
  exists (ndmi : DataArray) (w' : World),
    NDMI.calculate_ndmi L item gdf w = (Ok ndmi, w')
    /\ da_values ndmi
       = zip_with ndmi_pixel (da_values nir_clip) (da_values red_al)
    /\ (Forall (eq (Num 200)) (da_values nir_clip) ->
        Forall (eq (Num 100)) (da_values red_al) ->
        Forall (eq (Num (1 # 3))) (da_values ndmi)).
Proof.
  intros Hs Hn Hred Hnir Hrc Hnc Hal.
  unfold NDMI.calculate_ndmi. rewrite Hs, Hn.
  step. rewrite Hred. step. rewrite Hnir.
  step. rewrite Hrc. step. rewrite Hnc. rewrite bind_run.
  unfold aligned_swir in Hal.
  assert (Hfin : forall w1,
    exists ndmi w',
      (mret (M := M) (squeezed (xr_div (xr_sub nir_clip red_al) (xr_add nir_clip red_al))) : M _) w1
      = (Ok ndmi, w')
      /\ da_values ndmi = zip_with ndmi_pixel (da_values nir_clip) (da_values red_al)
      /\ (Forall (eq (Num 200)) (da_values nir_clip) ->
          Forall (eq (Num 100)) (da_values red_al) ->
          Forall (eq (Num (1 # 3))) (da_values ndmi))).
  { intros w1. eexists _, _. split; [reflexivity|].
    rewrite squeezed_values, ndmi_values. split; [reflexivity|].
    intros Hx Hy. rewrite <- ndmi_pixel_200_100. by apply zip_with_constant. }
  case_decide.
  - rewrite call_run, Hal. apply Hfin.
  - injection Hal as <-. apply Hfin.
Qed.

(** ** Range of the index *)


Lemma Qzero_bool_true (q : Q) : Qzero_bool q = true <-> (q == 0)%Q.
Proof. unfold Qzero_bool. apply Qeq_bool_iff. Qed.

Lemma Qzero_bool_false (q : Q) : Qzero_bool q = false <-> ~ (q == 0)%Q.
Proof.
  rewrite <- Qzero_bool_true. destruct (Qzero_bool q); split; congruence.
Qed.




(** The two zero-sum cases, and a no-data pixel.  Two zero reflectances
    give NaN; values outside the reflectance domain that cancel give an
    infinity, as IEEE division of a non-zero number by zero does. *)
Example ndmi_pixel_zero_zero : ndmi_pixel (Num 0) (Num 0) = NaN.
Proof. reflexivity. Qed.

Example ndmi_pixel_cancelling : ndmi_pixel (Num 5) (Num (-5)) = Inf false.
Proof. reflexivity. Qed.

Example ndmi_pixel_masked (s : pixel) : ndmi_pixel NaN s = NaN.
Proof. destruct s; reflexivity. Qed.

(** ** Missing band assets *)

(** C3, as the code has it.  For an item that lacks ["swir16"] or
    ["nir08"], [calculate_ndmi] raises a [ValueError] whose message is
    "Item <id> missing necessary assets (SWIR and NIR).": it carries the
    item id and the names of both required bands, whichever asset is
    absent.  The world is left as it was: nothing was logged, so no band
    URI was opened. *)
Theorem calculate_ndmi_missing_assets
    (L : Libs) (item : Item) (gdf : GeoDataFrame) (w : World) :
  assets item !! "swir16" = None \/ assets item !! "nir08" = None ->
  NdmiCalculator.calculate_ndmi L item gdf w
  = (Raise {| exn_kind_of := ValueError;
              exn_msg := "Item " +:+ item_id item
                         +:+ " missing necessary assets (SWIR and NIR)." |},
     w).
Proof.
  intros [H | H]; unfold NdmiCalculator.calculate_ndmi; rewrite H.
  - reflexivity.
  - destruct (assets item !! "swir16"); reflexivity.
Qed.

Lemma calculate_ndmi_missing_assets_witness :
  NdmiCalculator.calculate_ndmi (Demo.libs Demo.utm Demo.empty_catalog)
    (Demo.scene_without_nir "S2A_43RGM" "2024-07-20T05:36:41Z") Demo.farm Demo.world0
  = (Raise {| exn_kind_of := ValueError;
              exn_msg := "Item S2A_43RGM missing necessary assets (SWIR and NIR)." |},
     Demo.world0).
Proof.
  apply (calculate_ndmi_missing_assets (Demo.libs Demo.utm Demo.empty_catalog)
           (Demo.scene_without_nir "S2A_43RGM" "2024-07-20T05:36:41Z")
           Demo.farm Demo.world0).
  right. vm_compute. reflexivity.
Defined.

Lemma NDMI_calculate_ndmi_missing_assets
    (L : Libs) (item : Item) (gdf : GeoDataFrame) (w : World) :
  assets item !! "swir16" = None \/ assets item !! "nir08" = None ->
  NDMI.calculate_ndmi L item gdf w = (Raise (NDMI.missing_assets_error item), w).
Proof.
  intros [H | H]; unfold NDMI.calculate_ndmi; rewrite H.
  - reflexivity.
  - destruct (assets item !! "swir16"); reflexivity.
Qed.

(** The message does not tell which asset is missing.  A scene that has
    its SWIR asset and lacks only ["nir08"] gets a message in which
    "nir08" does not occur, and a scene with the same id that lacks only
    ["swir16"] gets the very same message. *)
Lemma missing_asset_not_named :
  let L := Demo.libs Demo.utm Demo.empty_catalog in
  let no_nir := Demo.scene_without_nir "S2A_43RGM" "2024-07-20T05:36:41Z" in
  let no_swir := Demo.scene_without_swir "S2A_43RGM" "2024-07-20T05:36:41Z" in
  assets no_nir !! "nir08" = None
  /\ is_Some (assets no_nir !! "swir16")
  /\ is_Some (assets no_swir !! "nir08")
  /\ exists e : Exception,
       NdmiCalculator.calculate_ndmi L no_nir Demo.farm Demo.world0
       = (Raise e, Demo.world0)
       /\ is_substring "nir08" (exn_msg e) = false
       /\ NdmiCalculator.calculate_ndmi L no_swir Demo.farm Demo.world0
          = (Raise e, Demo.world0).
Proof.
  cbv zeta. split; [vm_compute; reflexivity|].
  split; [vm_compute; eauto|]. split; [vm_compute; eauto|].
  eexists. split; [vm_compute; reflexivity|].
  split; vm_compute; reflexivity.
Qed.

(** ** Frame rules *)

#[export] Instance trace_grows_preorder (P : Event -> Prop) : PreOrder (trace_grows P).
Proof.
  split.
  - intros w. exists []. by rewrite app_nil_r.
  - intros w1 w2 w3 (es & E1 & H1) (fs & E2 & H2).
    exists (es ++ fs). rewrite E2, E1, app_assoc.
    split; [done | by apply Forall_app].
Qed.

#[export] Instance files_within_preorder (S : gset string) : PreOrder (files_within S).
Proof.
  split.
  - intros w. unfold files_within. set_solver.
  - intros w1 w2 w3. unfold files_within. set_solver.
Qed.

#[export] Instance files_kept_preorder : PreOrder files_kept.
Proof.
  split.
  - intros w. reflexivity.
  - intros w1 w2 w3 H1 H2. unfold files_kept in *. congruence.
Qed.

Section Frame.
Context (R : relation World) `{!PreOrder R}.

Lemma preserves_ret {A} (a : A) : preserves R (mret a : M A).
Proof. intros w. simpl. reflexivity. Qed.

Lemma preserves_raise {A} (e : Exception) : preserves R (raise e : M A).
Proof. intros w. simpl. reflexivity. Qed.

Lemma preserves_pure {A} (r : result A) : preserves R (fun w => (r, w)).
Proof. intros w. simpl. reflexivity. Qed.

Lemma preserves_bind {A B} (m : M A) (k : A -> M B) :
  preserves R m -> (forall a, preserves R (k a)) -> preserves R (m ≫= k).
Proof.
  intros Hm Hk w. rewrite bind_run. specialize (Hm w).
  destruct (m w) as [[a|e] w1]; simpl in *; [|exact Hm].
  etrans; [exact Hm | apply Hk].
Qed.

Lemma preserves_try {A} (body : M A) (handler : Exception -> M A) :
  preserves R body -> (forall e, preserves R (handler e)) ->
  preserves R (try_except body handler).
Proof.
  intros Hb Hh w. unfold try_except. specialize (Hb w).
  destruct (body w) as [[a|e] w1]; simpl in *; [exact Hb|].
  etrans; [exact Hb | apply Hh].
Qed.

Lemma preserves_emit (e : Event) :
  (forall w, R w (log w e)) -> preserves R (emit e).
Proof. intros H w. apply H. Qed.

Lemma preserves_call {A} (e : Event) (r : result A) :
  (forall w, R w (log w e)) -> preserves R (call e r).
Proof. intros H w. rewrite call_run. apply H. Qed.

Lemma preserves_print (line : string) :
  (forall w, R w (log w (EvPrint line))) -> preserves R (print line).
Proof. intros H w. apply H. Qed.
End Frame.

Lemma trace_grows_log (P : Event -> Prop) (e : Event) (w : World) :
  P e -> trace_grows P w (log w e).
Proof. intros H. exists [e]. split; [reflexivity | by constructor]. Qed.

Lemma trace_grows_write (P : Event -> Prop) (path : string) (f : Figure) :
  preserves (trace_grows P) (write_file path f).
Proof. intros w. exists []. simpl. by rewrite app_nil_r. Qed.

Lemma files_within_log (S : gset string) (e : Event) (w : World) :
  files_within S w (log w e).
Proof. unfold files_within. simpl. set_solver. Qed.

Lemma files_within_write (S : gset string) (path : string) (f : Figure) :
  path ∈ S -> preserves (files_within S) (write_file path f).
Proof.
  intros H w. unfold files_within. simpl. rewrite dom_insert. set_solver.
Qed.

Lemma files_within_mono (S T : gset string) (w w' : World) :
  S ⊆ T -> files_within S w w' -> files_within T w w'.
Proof. unfold files_within. set_solver. Qed.

Lemma searches_app (t u : list Event) : searches (t ++ u) = searches t ++ searches u.
Proof. apply omap_app. Qed.

Lemma searches_not_search (es : list Event) : Forall not_search es -> searches es = [].
Proof.
  induction 1 as [|e es He _ IH]; [reflexivity|].
  destruct e; simpl in *; try exact IH. contradiction.
Qed.

Lemma trace_grows_searches (w w' : World) :
  trace_grows not_search w w' -> searches (w_trace w') = searches (w_trace w).
Proof.
  intros (es & -> & H). rewrite searches_app, (searches_not_search es) by done.
  by rewrite app_nil_r.
Qed.

Ltac frame_step :=
  lazymatch goal with
  | |- PreOrder _ => tc_solve
  | |- preserves _ (call _ _) => apply preserves_call
  | |- preserves _ (print _) => apply preserves_print
  | |- preserves _ (emit _) => apply preserves_emit
  | |- preserves (trace_grows _) (write_file _ _) => apply trace_grows_write
  | |- preserves _ (try_except _ _) => apply preserves_try
  | |- preserves _ (mret _) => apply preserves_ret
  | |- preserves _ (raise _) => apply preserves_raise
  | |- preserves _ (_ ≫= _) => apply preserves_bind
  | |- preserves _ (fun w => (_, w)) => apply preserves_pure
  | |- trace_grows _ _ (log _ _) => apply trace_grows_log; exact I
  | |- files_within _ _ (log _ _) => apply files_within_log
  | |- files_kept _ (log _ _) => reflexivity
  | |- preserves (files_within _) (write_file _ _) => apply files_within_write
  | |- preserves _ _ => first [case_match | case_decide]
  | |- forall _, _ => intros ?
  end.

Ltac frame := repeat frame_step.

Lemma calculate_ndmi_no_search (L : Libs) (item : Item) (gdf : GeoDataFrame) :
  preserves (trace_grows not_search) (NdmiCalculator.calculate_ndmi L item gdf).
Proof. unfold NdmiCalculator.calculate_ndmi. frame. Qed.

Lemma plot_and_save_no_search (L : Libs) (ndmi : DataArray) (out date : string) :
  preserves (trace_grows not_search) (NdmiCalculator.plot_and_save_ndmi L ndmi out date).
Proof. unfold NdmiCalculator.plot_and_save_ndmi. frame. Qed.

Lemma process_item_no_search (L : Libs) (gdf : GeoDataFrame) (out : string) (item : Item) :
  preserves (trace_grows not_search) (NdmiCalculator.process_item L gdf out item).
Proof.
  unfold NdmiCalculator.process_item, NdmiCalculator.try_block,
    NdmiCalculator.item_date_of.
  frame; first [apply calculate_ndmi_no_search | apply plot_and_save_no_search].
Qed.

Lemma for_items_no_search (L : Libs) (gdf : GeoDataFrame) (out : string) (items : list Item) :
  preserves (trace_grows not_search) (NdmiCalculator.for_items L gdf out items).
Proof.
  induction items as [|item rest IH]; simpl.
  - frame.
  - apply preserves_bind; [tc_solve | apply process_item_no_search | intros _; exact IH].
Qed.

Lemma process_all_no_search (L : Libs) (gdf : GeoDataFrame) (out : string) (items : list Item) :
  preserves (trace_grows not_search) (NdmiCalculator.process_all L gdf out items).
Proof.
  unfold NdmiCalculator.process_all. frame. apply for_items_no_search.
Qed.

(** ** The catalog searches of [main] *)

Lemma load_and_search_data_run (L : Libs) (client : Client) (bbox : BBox)
    (start_date end_date : string) (w : World) :
  NdmiCalculator.load_and_search_data L client "sentinel-2-l2a" bbox
    start_date end_date None w
  = (client_search L client (initial_query bbox start_date end_date),
     log w (EvSearch (initial_query bbox start_date end_date))).
Proof.
  unfold NdmiCalculator.load_and_search_data. rewrite bind_run, call_run.
  fold (initial_query bbox start_date end_date).
  destruct (client_search L client _); reflexivity.
Qed.

(** [main] up to the outcome of the fallback search, on the runs whose
    first search finds nothing. *)
Lemma main_on_fallback_path
    (L : Libs) (geojson_path start_date end_date output_path : string) (w : World)
    (client : Client) (gdf : GeoDataFrame) (g : Geometry) (gs : list Geometry) :
  client_open L api_url = Ok client ->
  gpd_read_file L geojson_path = Ok gdf ->
  gdf_geometry gdf = g :: gs ->
  client_search L client (initial_query (geom_bounds L g) start_date end_date) = Ok [] ->
  NdmiCalculator.main L geojson_path start_date end_date output_path w
  = let w1 := logs w [EvClientOpen api_url; EvReadFile geojson_path;
                      EvSearch (initial_query (geom_bounds L g) start_date end_date);
                      EvPrint searching_latest;
                      EvSearch (fallback_query L (geom_bounds L g))] in
    match client_search L client (fallback_query L (geom_bounds L g)) with
    | Ok [] => (Ok tt, log w1 (EvPrint "No Sentinel-2 data found."))
    | Ok (item :: rest) =>
        NdmiCalculator.process_all L gdf output_path (item :: rest) w1
    | Raise e => (Raise e, w1)
    end.
Proof.
  intros Hc Hf Hg Hq. unfold NdmiCalculator.main.
  fold api_url. step. rewrite Hc. step. rewrite Hf.
  rewrite bind_run. unfold NdmiCalculator.first_bounds. rewrite Hg. cbn [mret M_ret ret].
  rewrite bind_run, load_and_search_data_run, Hq.
  step. rewrite bind_run.
  pose proof (load_and_search_data_run L client (geom_bounds L g) "2015-06-23" (utcnow_ymd L)) as Hfb.
  change (initial_query (geom_bounds L g) "2015-06-23" (utcnow_ymd L))
    with (fallback_query L (geom_bounds L g)) in Hfb.
  rewrite Hfb. rewrite !log_as_logs. unfold logs, log; simpl. rewrite <- !app_assoc. simpl.
  destruct (client_search L client (fallback_query L (geom_bounds L g))) as [[|item rest]|e];
    try reflexivity.
  rewrite print_run. unfold log. simpl. rewrite <- !app_assoc. reflexivity.
Qed.

Lemma searches_logs (w : World) (es : list Event) :
  searches (w_trace (logs w es)) = searches (w_trace w) ++ searches es.
Proof. unfold logs. simpl. apply searches_app. Qed.



Lemma NDMI_load_and_search_data_run (L : Libs) (client : Client) (bbox : BBox)
    (start_date end_date : string) (w : World) :
  NDMI.load_and_search_data L client "sentinel-2-l2a" bbox start_date end_date None w
  = (client_search L client (initial_query bbox start_date end_date),
     log w (EvSearch (initial_query bbox start_date end_date))).
Proof.
  unfold NDMI.load_and_search_data. rewrite bind_run, call_run.
  fold (initial_query bbox start_date end_date).
  destruct (client_search L client _); reflexivity.
Qed.

(** The earlier variant has no fallback: on an empty result it prints one
    line and returns after its single search. *)
Lemma NDMI_main_no_fallback
    (L : Libs) (geojson_path start_date end_date output_path : string) (w : World)
    (client : Client) (gdf : GeoDataFrame) (g : Geometry) (gs : list Geometry) :
  client_open L api_url = Ok client ->
  gpd_read_file L geojson_path = Ok gdf ->
  gdf_geometry gdf = g :: gs ->
  client_search L client (initial_query (geom_bounds L g) start_date end_date) = Ok [] ->
  NDMI.main L geojson_path start_date end_date output_path w
  = (Ok tt,
     logs w [EvClientOpen api_url; EvReadFile geojson_path;
             EvSearch (initial_query (geom_bounds L g) start_date end_date);
             EvPrint "No items found for the given date range."]).
Proof.
  intros Hc Hf Hg Hq. unfold NDMI.main.
  fold api_url. step. rewrite Hc. step. rewrite Hf.
  rewrite bind_run. unfold NDMI.first_bounds. rewrite Hg. cbn [mret M_ret ret].
  rewrite bind_run, NDMI_load_and_search_data_run, Hq. rewrite print_run.
  unfold logs, log; simpl. rewrite <- !app_assoc. reflexivity.
Qed.

(** C9. On the runs that take the fallback path, the fallback query
    carries the same cloud-cover filter as the first one: both ask for
    [eo:cloud_cover] strictly below ("lt") the default ceiling 50, and no
    other search is made. *)
Theorem fallback_keeps_cloud_cover_ceiling
    (L : Libs) (geojson_path start_date end_date output_path : string) (w : World)
    (client : Client) (gdf : GeoDataFrame) (g : Geometry) (gs : list Geometry) :
  client_open L api_url = Ok client ->
  gpd_read_file L geojson_path = Ok gdf ->
  gdf_geometry gdf = g :: gs ->
  client_search L client (initial_query (geom_bounds L g) start_date end_date) = Ok [] ->
  exists first fallback : Query,
    searches (w_trace (NdmiCalculator.main L geojson_path start_date end_date
                         output_path w).2)
    = searches (w_trace w) ++ [first; fallback]
    /\ q_datetime first = start_date +:+ "/" +:+ end_date
    /\ q_datetime fallback = "2015-06-23/" +:+ utcnow_ymd L
    /\ q_query first = [("eo:cloud_cover", [("lt", 50%Z)])]
    /\ q_query fallback = q_query first.
Proof.
  intros Hc Hf Hg Hq.
  exists (initial_query (geom_bounds L g) start_date end_date),
         (fallback_query L (geom_bounds L g)).
  split; [|by repeat split].
  rewrite (main_on_fallback_path L _ _ _ _ w client gdf g gs) by assumption.
  cbv zeta.
  destruct (client_search L client (fallback_query L (geom_bounds L g)))
    as [[|item rest]|e]; cbn [snd].
  - rewrite log_logs, searches_logs. reflexivity.
  - rewrite (trace_grows_searches _ _ (process_all_no_search L gdf output_path _ _)).
    rewrite searches_logs. reflexivity.
  - rewrite searches_logs. reflexivity.
Qed.

(** ** Order of the raster calls *)

Lemma fallback_keeps_cloud_cover_ceiling_witness :
  let L := Demo.libs Demo.utm Demo.empty_catalog in
  exists first fallback : Query,
    searches (w_trace (NdmiCalculator.main L "farm.geojson" "2024-07-16" "2024-08-02"
                         "out" Demo.world0).2)
    = [first; fallback]
    /\ q_datetime first = "2024-07-16/2024-08-02"
    /\ q_datetime fallback = "2015-06-23/2026-11-04"
    /\ q_query first = [("eo:cloud_cover", [("lt", 50%Z)])]
    /\ q_query fallback = q_query first.
Proof.
  intros L.
  apply (fallback_keeps_cloud_cover_ceiling L "farm.geojson" "2024-07-16" "2024-08-02"
           "out" Demo.world0 {| client_url := api_url |} Demo.farm
           [(77 # 1, 28 # 1); (78 # 1, 28 # 1); (78 # 1, 29 # 1)]%Q []);
    reflexivity.
Defined.

Ltac run_call :=
  cbv beta; rewrite bind_run, call_run;
  match goal with
  | |- context [match ?r with Ok _ => _ | Raise _ => _ end] =>
      let H := fresh "Hcall" in destruct r eqn:H
  end.

Ltac same_calls :=
  repeat match goal with
         | H1 : ?t = Some ?x, H2 : ?t = Some ?y |- _ =>
             rewrite H1 in H2; injection H2 as <-
         | H1 : ?t = Ok ?x, H2 : ?t = Ok ?y |- _ =>
             rewrite H1 in H2; injection H2 as <-
         end.

(** C7. In every run of [calculate_ndmi] a band-to-band reprojection, if
    there is one, is the last raster call, made after both bands were
    clipped, on the two clipped bands, and only when their CRSs differ.
    When the clipped bands have the same CRS none is made and the formula
    is applied to the two clipped bands as they are. *)
Theorem clip_before_reproject
    (L : Libs) (item : Item) (gdf : GeoDataFrame) (w : World) :
  let run := NdmiCalculator.calculate_ndmi L item gdf w in
  exists es : list Event,
    run.2 = logs w es
    /\ (reprojections es = []
        \/ exists (swir16 nir08 : Asset) (red nir red_clip nir_clip : DataArray)
                  (gdf' : GeoDataFrame),
             es = [EvOpenRaster (href swir16); EvOpenRaster (href nir08);
                   EvGdfToCrs (da_crs red); EvClip red; EvClip nir;
                   EvReprojectMatch red_clip nir_clip]
             /\ rio_clip L red (gdf_geometry gdf') (gdf_crs gdf') = Ok red_clip
             /\ rio_clip L nir (gdf_geometry gdf') (gdf_crs gdf') = Ok nir_clip
             /\ da_crs red_clip <> da_crs nir_clip)
    /\ (forall (swir16 nir08 : Asset) (red nir red_clip nir_clip : DataArray)
               (gdf' : GeoDataFrame),
          assets item !! "swir16" = Some swir16 ->
          assets item !! "nir08" = Some nir08 ->
          open_rasterio L (href swir16) = Ok red ->
          open_rasterio L (href nir08) = Ok nir ->
          gdf_to_crs L gdf (da_crs red) = Ok gdf' ->
          rio_clip L red (gdf_geometry gdf') (gdf_crs gdf') = Ok red_clip ->
          rio_clip L nir (gdf_geometry gdf') (gdf_crs gdf') = Ok nir_clip ->
          da_crs red_clip = da_crs nir_clip ->
          run.1 = Ok (squeezed (xr_div (xr_sub nir_clip red_clip)
                                       (xr_add nir_clip red_clip)))
          /\ es = [EvOpenRaster (href swir16); EvOpenRaster (href nir08);
                   EvGdfToCrs (da_crs red); EvClip red; EvClip nir]).
Proof.
  cbv zeta. unfold NdmiCalculator.calculate_ndmi.
  destruct (assets item !! "swir16") as [swir16|] eqn:Hs;
    [destruct (assets item !! "nir08") as [nir08|] eqn:Hn|].
  2,3: exists []; rewrite logs_nil; (split; [reflexivity|]);
       (split; [by left|]); intros; congruence.
  run_call.
  2:{ eexists. split; [norm_logs; reflexivity|]. split; [by left|].
      intros; congruence. }
  do 4 (run_call;
        [|eexists; (split; [norm_logs; reflexivity|]); (split; [by left|]);
          intros; congruence]).
  cbv beta. rewrite bind_run. case_decide as Hcrs.
  - rewrite call_run.
    eexists. split.
    { destruct (rio_reproject_match L _ _); cbn [snd]; norm_logs; reflexivity. }
    split.
    + right. by eexists _, _, _, _, _, _, _.
    + intros. simplify_eq. same_calls. contradiction.
  - eexists. split; [cbn [snd mret M_ret ret]; norm_logs; reflexivity|].
    split; [by left|]. intros. simplify_eq. same_calls. split; reflexivity.
Qed.

Lemma clip_before_reproject_witness :
  let L := Demo.libs Demo.utm Demo.empty_catalog in
  let run := NdmiCalculator.calculate_ndmi L (Demo.scene "S2A_43RGM" "2024-07-20T05:36:41Z")
               Demo.farm Demo.world0 in
  run.1 = Ok (squeezed (xr_div (xr_sub (Demo.band Demo.utm 200) (Demo.band Demo.utm 100))
                               (xr_add (Demo.band Demo.utm 200) (Demo.band Demo.utm 100))))
  /\ run.2 = logs Demo.world0
               [EvOpenRaster Demo.swir_uri; EvOpenRaster Demo.nir_uri;
                EvGdfToCrs (Some Demo.utm);
                EvClip (Demo.band Demo.utm 100); EvClip (Demo.band Demo.utm 200)].
Proof.
  intros L run.
  destruct (clip_before_reproject L (Demo.scene "S2A_43RGM" "2024-07-20T05:36:41Z")
              Demo.farm Demo.world0) as (es & Hrun & _ & Hsame).
  destruct (Hsame {| href := Demo.swir_uri |} {| href := Demo.nir_uri |}
              (Demo.band Demo.utm 100) (Demo.band Demo.utm 200)
              (Demo.band Demo.utm 100) (Demo.band Demo.utm 200)
              {| gdf_crs := Some Demo.utm; gdf_geometry := gdf_geometry Demo.farm |})
    as [Hres Hes]; try (vm_compute; reflexivity).
  split; [exact Hres|]. subst run. rewrite Hrun, Hes. reflexivity.
Defined.

(** When the two rasters are stored in different CRSs the reprojection
    comes last, after the two clips. *)
Example reproject_after_clips :
  reprojections
    (w_trace (NdmiCalculator.calculate_ndmi (Demo.libs "EPSG:32644" Demo.empty_catalog)
                (Demo.scene "S2A_43RGM" "2024-07-20T05:36:41Z") Demo.farm Demo.world0).2)
  = [(Demo.band "EPSG:32644" 100, Demo.band Demo.utm 200)].
Proof. vm_compute. reflexivity. Qed.

(** ** Render and persist *)







(** ** The loop over the scenes *)

Lemma calculate_ndmi_files_kept (L : Libs) (item : Item) (gdf : GeoDataFrame) :
  preserves files_kept (NdmiCalculator.calculate_ndmi L item gdf).
Proof. unfold NdmiCalculator.calculate_ndmi. frame. Qed.

Lemma process_item_run (L : Libs) (gdf : GeoDataFrame) (out : string) (item : Item)
    (w : World) :
  NdmiCalculator.process_item L gdf out item w
  = match NdmiCalculator.try_block L gdf out item w with
    | (Ok _, w') => (Ok tt, w')
    | (Raise e, w') => (Ok tt, log w' (EvPrint (NdmiCalculator.error_line item e)))
    end.
Proof.
  unfold NdmiCalculator.process_item, try_except.
  destruct (NdmiCalculator.try_block L gdf out item w) as [[[]|e] w']; reflexivity.
Qed.

Lemma for_items_returns (L : Libs) (gdf : GeoDataFrame) (out : string)
    (items : list Item) (w : World) :
  (NdmiCalculator.for_items L gdf out items w).1 = Ok tt.
Proof.
  revert w. induction items as [|item rest IH]; intros w; [reflexivity|].
  cbn [NdmiCalculator.for_items]. rewrite bind_run, process_item_run.
  destruct (NdmiCalculator.try_block L gdf out item w) as [[[]|e] w']; apply IH.
Qed.

Lemma for_items_cons (L : Libs) (gdf : GeoDataFrame) (out : string)
    (item : Item) (rest : list Item) (w : World) :
  NdmiCalculator.for_items L gdf out (item :: rest) w
  = NdmiCalculator.for_items L gdf out rest
      (NdmiCalculator.process_item L gdf out item w).2.
Proof.
  cbn [NdmiCalculator.for_items]. rewrite bind_run, process_item_run.
  destruct (NdmiCalculator.try_block L gdf out item w) as [[[]|e] w']; reflexivity.
Qed.

Lemma for_items_app (L : Libs) (gdf : GeoDataFrame) (out : string)
    (pre post : list Item) (w : World) :
  NdmiCalculator.for_items L gdf out (pre ++ post) w
  = NdmiCalculator.for_items L gdf out post
      (NdmiCalculator.for_items L gdf out pre w).2.
Proof.
  revert w. induction pre as [|item pre IH]; intros w; [reflexivity|].
  rewrite <- app_comm_cons, !for_items_cons. apply IH.
Qed.

(** What a successful [try] block has done. *)
Lemma try_block_ok (L : Libs) (gdf : GeoDataFrame) (out : string) (item : Item)
    (w w' : World) :
  NdmiCalculator.try_block L gdf out item w = (Ok tt, w') ->
  exists (ndmi : DataArray) (d : string),
    date_label item = Some d
    /\ (NdmiCalculator.calculate_ndmi L item gdf w).1 = Ok ndmi
    /\ w_files w'
       = <[NdmiCalculator.output_file_name out d := NdmiCalculator.figure L ndmi d]>
           (w_files w).
Proof.
  unfold NdmiCalculator.try_block. rewrite bind_run.
  pose proof (calculate_ndmi_files_kept L item gdf w) as Hkept.
  destruct (NdmiCalculator.calculate_ndmi L item gdf w) as [[ndmi|e] w1];
    [|discriminate].
  unfold files_kept in Hkept. cbn [snd] in Hkept.
  rewrite bind_run. unfold NdmiCalculator.item_date_of, date_label.
  destruct (properties item !! "datetime") as [[s|]|]; try discriminate.
  cbn [mret M_ret ret]. rewrite bind_run.
  unfold NdmiCalculator.plot_and_save_ndmi. rewrite bind_run.
  destruct (ax_imshow L ndmi); [discriminate|]. cbn [outcome].
  rewrite bind_run, call_run.
  destruct (plt_savefig L _ _); [discriminate|]. cbn [outcome].
  unfold write_file. cbv beta iota. rewrite print_run. intros [= <-].
  exists ndmi, (split_first "T" s). repeat split. simpl. by rewrite Hkept.
Qed.

(** C5. The loop of [main] isolates the scenes.  It never raises; when
    the [try] block of a scene raises, wherever the scene stands in the
    result set, the loop prints "Error processing item <id>: <message>" and
    goes on with the scenes after it; and when the first of two scenes
    raises and the second succeeds, the run ends normally with the second
    scene's figure in its output file. *)
Theorem per_item_isolation (L : Libs) (gdf : GeoDataFrame) (output_path : string) :
  (forall (items : list Item) (w : World),
     (NdmiCalculator.for_items L gdf output_path items w).1 = Ok tt)
  /\ (forall (before : list Item) (item : Item) (rest : list Item)
             (w w1 : World) (e : Exception),
        NdmiCalculator.try_block L gdf output_path item
          (NdmiCalculator.for_items L gdf output_path before w).2 = (Raise e, w1) ->
        NdmiCalculator.for_items L gdf output_path (before ++ item :: rest) w
        = NdmiCalculator.for_items L gdf output_path rest
            (log w1 (EvPrint ("Error processing item " +:+ item_id item
                              +:+ ": " +:+ exn_msg e))))
  /\ (forall (first second : Item) (w w1 w2 : World) (e : Exception),
        NdmiCalculator.try_block L gdf output_path first w = (Raise e, w1) ->
        NdmiCalculator.try_block L gdf output_path second
          (log w1 (EvPrint ("Error processing item " +:+ item_id first
                            +:+ ": " +:+ exn_msg e))) = (Ok tt, w2) ->
        NdmiCalculator.for_items L gdf output_path [first; second] w = (Ok tt, w2)
        /\ exists (d : string) (ndmi : DataArray),
             date_label second = Some d
             /\ w_files w2 !! os_path_join output_path ("ndmi_" +:+ d +:+ ".png")
                = Some (NdmiCalculator.figure L ndmi d)).
Proof.
  split; [apply for_items_returns|]. split.
  - intros before item rest w w1 e Hraise.
    rewrite for_items_app, for_items_cons, process_item_run, Hraise. reflexivity.
  - intros first second w w1 w2 e Hraise Hok. split.
    + rewrite for_items_cons, process_item_run, Hraise. cbn [snd].
      unfold NdmiCalculator.error_line.
      rewrite for_items_cons, process_item_run, Hok. reflexivity.
    + destruct (try_block_ok _ _ _ _ _ _ Hok) as (ndmi & d & Hd & _ & Hfiles).
      exists d, ndmi. split; [exact Hd|].
      rewrite Hfiles. apply lookup_insert_eq.
Qed.

Lemma per_item_isolation_witness :
  let L := Demo.libs Demo.utm Demo.empty_catalog in
  let first := Demo.scene_without_nir "S2A_43RGM_0" "2024-07-20T05:36:41Z" in
  let second := Demo.scene "S2B_43RGM_1" "2024-07-25T05:36:39Z" in
  exists w2 : World,
    NdmiCalculator.for_items L Demo.farm "out" [first; second] Demo.world0 = (Ok tt, w2)
    /\ EvPrint "Error processing item S2A_43RGM_0: Item S2A_43RGM_0 missing necessary assets (SWIR and NIR)."
       ∈ w_trace w2
    /\ exists (d : string) (ndmi : DataArray),
         date_label second = Some d
         /\ w_files w2 !! os_path_join "out" ("ndmi_" +:+ d +:+ ".png")
            = Some (NdmiCalculator.figure L ndmi d).
Proof.
  intros L first second.
  destruct (per_item_isolation L Demo.farm "out") as (_ & _ & Htwo).
  pose (w1 := log Demo.world0
                (EvPrint ("Error processing item " +:+ item_id first +:+ ": "
                          +:+ exn_msg (NdmiCalculator.missing_assets_error first)))).
  exists (NdmiCalculator.try_block L Demo.farm "out" second w1).2.
  destruct (Htwo first second Demo.world0 Demo.world0
              (NdmiCalculator.try_block L Demo.farm "out" second w1).2
              (NdmiCalculator.missing_assets_error first)) as [Hrun Hfile].
  - vm_compute. reflexivity.
  - vm_compute. reflexivity.
  - split; [exact Hrun|]. split; [|exact Hfile].
    vm_compute. apply list_elem_of_In. simpl. tauto.
Defined.

(** The earlier variant isolates failures in the same way; it differs
    only in stopping after the first scene that succeeds. *)
Lemma NDMI_for_items_continues (L : Libs) (gdf : GeoDataFrame) (output_path : string)
    (item : Item) (rest : list Item) (w w1 : World) (e : Exception) :
  NDMI.calculate_ndmi L item gdf w = (Raise e, w1) ->
  NDMI.for_items L gdf output_path (item :: rest) w
  = NDMI.for_items L gdf output_path rest
      (log w1 (EvPrint ("Error processing item " +:+ item_id item
                        +:+ ": " +:+ exn_msg e))).
Proof.
  intros Hraise. cbn [NDMI.for_items]. rewrite bind_run.
  unfold NDMI.process_item, try_except. rewrite bind_run, Hraise.
  rewrite bind_run, print_run. reflexivity.
Qed.

(** ** One output file per date *)

Lemma size_list_to_set_le (l : list string) :
  size (list_to_set l : gset string) <= length l.
Proof.
  induction l as [|x l IH].
  - cbn [list_to_set length]. rewrite size_empty. lia.
  - cbn [list_to_set length]. rewrite size_union_alt, size_singleton.
    assert (Hsub : list_to_set l ∖ {[x]} ⊆ (list_to_set l : gset string))
      by set_solver.
    apply subseteq_size in Hsub. lia.
Qed.

Lemma size_image_le (f : string -> string) (l : list string) :
  size (list_to_set (f <$> l) : gset string) <= size (list_to_set l : gset string).
Proof.
  rewrite (list_to_set_fmap_L (C := gset string) f l). unfold set_map.
  etrans; [apply size_list_to_set_le|].
  rewrite length_fmap. reflexivity.
Qed.

Lemma preserves_files_mono {A} (S T : gset string) (m : M A) :
  S ⊆ T -> preserves (files_within S) m -> preserves (files_within T) m.
Proof. intros Hsub Hm w. eapply files_within_mono; [exact Hsub | apply Hm]. Qed.

Lemma calculate_ndmi_no_file (L : Libs) (item : Item) (gdf : GeoDataFrame)
    (S : gset string) :
  preserves (files_within S) (NdmiCalculator.calculate_ndmi L item gdf).
Proof. unfold NdmiCalculator.calculate_ndmi. frame. Qed.

Lemma preserves_bind_ret (R : relation World) {A B} (a : A) (k : A -> M B) :
  preserves R (k a) -> preserves R (mret a ≫= k).
Proof. intros H w. apply H. Qed.

Lemma preserves_bind_raise (R : relation World) `{!PreOrder R} {A B}
    (e : Exception) (k : A -> M B) :
  preserves R (raise e ≫= k).
Proof. intros w. simpl. reflexivity. Qed.

Lemma process_item_files (L : Libs) (gdf : GeoDataFrame) (out : string) (item : Item) :
  preserves (files_within (output_files out [item]))
    (NdmiCalculator.process_item L gdf out item).
Proof.
  unfold NdmiCalculator.process_item, NdmiCalculator.try_block.
  apply preserves_try; [tc_solve | | frame].
  apply preserves_bind; [tc_solve | apply calculate_ndmi_no_file | intros ndmi].
  unfold output_files, NdmiCalculator.item_date_of. cbn [omap list_omap].
  unfold date_label.
  destruct (properties item !! "datetime") as [[s|]|];
    [|apply preserves_bind_raise; tc_solve..].
  apply preserves_bind_ret.
  unfold NdmiCalculator.plot_and_save_ndmi. frame.
  cbn [fmap list_fmap list_to_set]. set_solver.
Qed.

Lemma output_files_cons (out : string) (item : Item) (rest : list Item) :
  output_files out (item :: rest) = output_files out [item] ∪ output_files out rest.
Proof.
  unfold output_files. cbn [omap list_omap].
  destruct (date_label item); cbn [fmap list_fmap list_to_set]; set_solver.
Qed.

Lemma for_items_files (L : Libs) (gdf : GeoDataFrame) (out : string) (items : list Item) :
  preserves (files_within (output_files out items))
    (NdmiCalculator.for_items L gdf out items).
Proof.
  induction items as [|item rest IH]; cbn [NdmiCalculator.for_items].
  - frame.
  - rewrite output_files_cons. apply preserves_bind; [tc_solve | | intros _].
    + eapply preserves_files_mono; [|apply process_item_files]. set_solver.
    + eapply preserves_files_mono; [|apply IH]. set_solver.
Qed.

(** C10. The output path is a function of the output directory and the
    date label alone.  The loop of [main] writes files only at the paths
    of the date labels of its scenes, so at most one new file per distinct
    date; and when two scenes with the same date label are both processed
    successfully, they were written to one path, which in the end holds
    the figure of the later scene. *)
Theorem one_output_file_per_date (L : Libs) (gdf : GeoDataFrame) (output_path : string) :
  (forall (items : list Item) (w : World),
     let w' := (NdmiCalculator.for_items L gdf output_path items w).2 in
     let dates : gset string := list_to_set (omap date_label items) in
     dom (w_files w') ∖ dom (w_files w)
       ⊆ set_map (fun d => os_path_join output_path ("ndmi_" +:+ d +:+ ".png")) dates
     /\ size (dom (w_files w') ∖ dom (w_files w)) <= size dates)
  /\ (forall (first second : Item) (w w1 w2 : World),
        date_label first = date_label second ->
        NdmiCalculator.try_block L gdf output_path first w = (Ok tt, w1) ->
        NdmiCalculator.try_block L gdf output_path second w1 = (Ok tt, w2) ->
        NdmiCalculator.for_items L gdf output_path [first; second] w = (Ok tt, w2)
        /\ exists (d : string) (ndmi1 ndmi2 : DataArray),
             date_label second = Some d
             /\ w_files w1
                = <[os_path_join output_path ("ndmi_" +:+ d +:+ ".png")
                    := NdmiCalculator.figure L ndmi1 d]> (w_files w)
             /\ w_files w2
                = <[os_path_join output_path ("ndmi_" +:+ d +:+ ".png")
                    := NdmiCalculator.figure L ndmi2 d]> (w_files w)
             /\ (NdmiCalculator.calculate_ndmi L second gdf w1).1 = Ok ndmi2).
Proof.
  split.
  - intros items w w' dates.
    assert (Hsub : dom (w_files w') ∖ dom (w_files w) ⊆ output_files output_path items).
    { pose proof (for_items_files L gdf output_path items w) as H.
      unfold files_within in H. subst w'. set_solver. }
    assert (Hout : output_files output_path items
                   = set_map (fun d => os_path_join output_path ("ndmi_" +:+ d +:+ ".png"))
                       dates).
    { unfold output_files, dates. apply list_to_set_fmap_L. }
    split; [by rewrite <- Hout|].
    etrans; [apply subseteq_size, Hsub|]. apply size_image_le.
  - intros first second w w1 w2 Hdate Hfirst Hsecond. split.
    + rewrite for_items_cons, process_item_run, Hfirst. cbn [snd].
      rewrite for_items_cons, process_item_run, Hsecond. reflexivity.
    + destruct (try_block_ok _ _ _ _ _ _ Hfirst) as (ndmi1 & d1 & Hd1 & _ & Hf1).
      destruct (try_block_ok _ _ _ _ _ _ Hsecond) as (ndmi2 & d2 & Hd2 & Hn2 & Hf2).
      assert (d1 = d2) as -> by congruence.
      exists d2, ndmi1, ndmi2. split; [exact Hd2|]. split; [exact Hf1|].
      split; [|exact Hn2]. rewrite Hf2, Hf1. apply insert_insert_eq.
Qed.

Lemma one_output_file_per_date_witness :
  let L := Demo.libs Demo.utm Demo.empty_catalog in
  let morning := Demo.scene "S2A_43RGM_0" "2024-07-20T05:36:41Z" in
  let later := Demo.scene "S2B_43RGN_0" "2024-07-20T05:36:55Z" in
  exists w2 : World,
    NdmiCalculator.for_items L Demo.farm "out/" [morning; later] Demo.world0 = (Ok tt, w2)
    /\ saves (w_trace w2) = ["out/ndmi_2024-07-20.png"; "out/ndmi_2024-07-20.png"]
    /\ exists ndmi2 : DataArray,
         w_files w2 = <["out/ndmi_2024-07-20.png"
                        := NdmiCalculator.figure L ndmi2 "2024-07-20"]> ∅
         /\ (NdmiCalculator.calculate_ndmi L later Demo.farm
               (NdmiCalculator.try_block L Demo.farm "out/" morning Demo.world0).2).1
            = Ok ndmi2.
Proof.
  intros L morning later.
  destruct (one_output_file_per_date L Demo.farm "out/") as [_ Hsame].
  pose (w1 := (NdmiCalculator.try_block L Demo.farm "out/" morning Demo.world0).2).
  pose (w2 := (NdmiCalculator.try_block L Demo.farm "out/" later w1).2).
  destruct (Hsame morning later Demo.world0 w1 w2)
    as (Hrun & d & ndmi1 & ndmi2 & Hd & _ & Hfiles & Hndmi).
  - vm_compute. reflexivity.
  - vm_compute. reflexivity.
  - vm_compute. reflexivity.
  - exists w2. split; [exact Hrun|]. split; [vm_compute; reflexivity|].
    exists ndmi2. split; [|exact Hndmi].
    assert (d = "2024-07-20") as -> by (vm_compute in Hd; congruence).
    exact Hfiles.
Defined.

(** ** The entry point *)

(** C6, on the code.  Without a config file the [__main__] block of
    [ndmi_calculator.py] calls [main] with four built-in values; what was
    given through [--geojson_path], [--start_date], [--end_date] and
    [--output_path] is parsed and then not used. *)
Theorem discrete_arguments_ignored
    (L : Libs) (args : NdmiCalculator.Namespace) (w : World) :
  NdmiCalculator.truthy (NdmiCalculator.ns_config args) = false ->
  NdmiCalculator.main_arguments L args w
  = (Ok {| NdmiCalculator.mc_geojson_path :=
             PyStr "/home/nandanaa/Projects/NDMI-Calculator/data/farm_p.geojson";
           NdmiCalculator.mc_start_date := PyStr "2024-07-16";
           NdmiCalculator.mc_end_date := PyStr "2024-08-02";
           NdmiCalculator.mc_output_path :=
             PyStr "/home/nandanaa/Projects/NDMI-Calculator/Output/" |},
     w).
Proof.
  intros Hno. unfold NdmiCalculator.main_arguments. rewrite Hno. reflexivity.
Qed.

Lemma discrete_arguments_ignored_witness :
  let L := Demo.libs Demo.utm Demo.empty_catalog in
  exists args : NdmiCalculator.Namespace,
    NdmiCalculator.parse_args
      ["--geojson_path"; "data/field.geojson"; "--start_date"; "2023-05-01";
       "--end_date"; "2023-05-31"; "--output_path"; "results"]
    = Some args
    /\ NdmiCalculator.ns_geojson_path args = Some "data/field.geojson"
    /\ NdmiCalculator.ns_start_date args = Some "2023-05-01"
    /\ NdmiCalculator.ns_end_date args = Some "2023-05-31"
    /\ NdmiCalculator.ns_output_path args = Some "results"
    /\ NdmiCalculator.main_arguments L args Demo.world0
       = (Ok {| NdmiCalculator.mc_geojson_path :=
                  PyStr "/home/nandanaa/Projects/NDMI-Calculator/data/farm_p.geojson";
                NdmiCalculator.mc_start_date := PyStr "2024-07-16";
                NdmiCalculator.mc_end_date := PyStr "2024-08-02";
                NdmiCalculator.mc_output_path :=
                  PyStr "/home/nandanaa/Projects/NDMI-Calculator/Output/" |},
          Demo.world0).
Proof.
  intros L. eexists. split; [vm_compute; reflexivity|].
  do 4 (split; [reflexivity|]).
  apply (discrete_arguments_ignored L). reflexivity.
Defined.

(** With a config file the four values are read from it. *)
Lemma main_arguments_from_config
    (L : Libs) (args : NdmiCalculator.Namespace) (w : World)
    (path : string) (config : gmap string pyval) :
  NdmiCalculator.ns_config args = Some path ->
  path <> "" ->
  json_load_file L path = Ok config ->
  NdmiCalculator.main_arguments L args w
  = (Ok {| NdmiCalculator.mc_geojson_path := default PyNone (config !! "geojson_path");
           NdmiCalculator.mc_start_date := default PyNone (config !! "start_date");
           NdmiCalculator.mc_end_date := default PyNone (config !! "end_date");
           NdmiCalculator.mc_output_path := default PyNone (config !! "output_path") |},
     log w (EvOpenConfig path)).
Proof.
  intros Hcfg Hne Hload. unfold NdmiCalculator.main_arguments, NdmiCalculator.truthy.
  rewrite Hcfg. apply String.eqb_neq in Hne. rewrite Hne.
  cbv beta zeta iota delta [negb]. change (default "" (Some path)) with path.
  rewrite bind_run, call_run, Hload. reflexivity.
Qed.

(** The earlier variant hands its four positional arguments to [main]. *)
Lemma NDMI_script_uses_arguments :
  forall L : Libs,
    NDMI.script L ["data/field.geojson"; "2023-05-01"; "2023-05-31"; "results.png"]
    = Some (NDMI.main L "data/field.geojson" "2023-05-01" "2023-05-31" "results.png").
Proof. reflexivity. Qed.

(** ** The abstraction of rounding, on concrete values

    In binary32 and in binary64 the index of NIR = 200 and SWIR = 100 is
    the float nearest to 1/3; the special cases agree with the model. *)

Example ieee_ndmi_binary32_200_100 :
  ieee_ndmi 24 128 (ieee_of_Z 24 128 200) (ieee_of_Z 24 128 100)
  = S754_finite false 11184811 (-25)
  /\ (Qabs ((11184811 # 1) * Qpower 2 (-25) - (1 # 3)) <= Qpower 2 (-26))%Q.
Proof. split; [vm_compute; reflexivity | vm_compute; discriminate]. Qed.

Example ieee_ndmi_binary64_200_100 :
  ieee_ndmi 53 1024 (ieee_of_Z 53 1024 200) (ieee_of_Z 53 1024 100)
  = S754_finite false 6004799503160661 (-54)
  /\ (Qabs ((6004799503160661 # 1) * Qpower 2 (-54) - (1 # 3)) <= Qpower 2 (-55))%Q.
Proof. split; [vm_compute; reflexivity | vm_compute; discriminate]. Qed.

Example ieee_ndmi_special_cases :
  pixel_of_ieee (ieee_ndmi 24 128 (ieee_of_Z 24 128 0) (ieee_of_Z 24 128 0))
  = ndmi_pixel (Num 0) (Num 0)
  /\ pixel_of_ieee (ieee_ndmi 24 128 (ieee_of_Z 24 128 5) (ieee_of_Z 24 128 (-5)))
     = ndmi_pixel (Num 5) (Num (-5))
  /\ pixel_of_ieee (ieee_ndmi 24 128 (ieee_of_Z 24 128 0) (ieee_of_Z 24 128 7))
     = ndmi_pixel (Num 0) (Num 7)
  /\ pixel_of_ieee (ieee_ndmi 24 128 (ieee_of_Z 24 128 65535) (ieee_of_Z 24 128 0))
     = ndmi_pixel (Num 65535) (Num 0).
Proof. repeat split; vm_compute; reflexivity. Qed.

(** * Further properties of the two scripts *)

(** ** [main]: what an exception leaves behind *)

Lemma fetches_logs (w : World) (es : list Event) :
  fetches (w_trace (logs w es)) = fetches (w_trace w) ++ fetches es.
Proof. unfold logs. simpl. apply omap_app. Qed.

Lemma process_all_run (L : Libs) (gdf : GeoDataFrame) (out : string)
    (items : list Item) (w : World) :
  NdmiCalculator.process_all L gdf out items w
  = match gdf_to_crs L gdf (Some "EPSG:4326") with
    | Ok gdf' =>
        NdmiCalculator.for_items L gdf' out items (log w (EvGdfToCrs (Some "EPSG:4326")))
    | Raise e => (Raise e, log w (EvGdfToCrs (Some "EPSG:4326")))
    end.
Proof.
  unfold NdmiCalculator.process_all. rewrite bind_run, call_run.
  destruct (gdf_to_crs L gdf (Some "EPSG:4326")); reflexivity.
Qed.

Lemma process_all_raise (L : Libs) (gdf : GeoDataFrame) (out : string)
    (items : list Item) (w w' : World) (ex : Exception) :
  NdmiCalculator.process_all L gdf out items w = (Raise ex, w') ->
  w' = log w (EvGdfToCrs (Some "EPSG:4326")).
Proof.
  rewrite process_all_run. destruct (gdf_to_crs L gdf (Some "EPSG:4326")) as [gdf'|e].
  - intros H. pose proof (for_items_returns L gdf' out items
                            (log w (EvGdfToCrs (Some "EPSG:4326")))) as Hok.
    rewrite H in Hok. discriminate.
  - by intros [= _ <-].
Qed.

Ltac nothing_left :=
  split; [reflexivity|]; norm_logs; rewrite fetches_logs; cbn [fetches omap list_omap];
  rewrite app_nil_r; reflexivity.

(** X1. When [main] raises, it has written no file and opened no raster:
    an exception can only come out of the start-up calls, a catalog
    search or the reprojection of the parcel, all of which precede the
    loop, and the loop itself never raises. *)
Theorem main_raise_leaves_nothing
    (L : Libs) (geojson_path start_date end_date output_path : string)
    (w w' : World) (ex : Exception) :
  NdmiCalculator.main L geojson_path start_date end_date output_path w = (Raise ex, w') ->
  w_files w' = w_files w /\ fetches (w_trace w') = fetches (w_trace w).
Proof.
  unfold NdmiCalculator.main. fold api_url.
  run_call; [|intros [= _ <-]; nothing_left].
  run_call; [|intros [= _ <-]; nothing_left].
  cbv beta. rewrite bind_run. unfold NdmiCalculator.first_bounds.
  destruct (gdf_geometry a0) as [|g gs]; [intros [= _ <-]; nothing_left|].
  cbn [mret M_ret ret]. rewrite bind_run, load_and_search_data_run.
  destruct (client_search L a _) as [[|item rest]|e1]; [| |intros [= _ <-]; nothing_left].
  - rewrite bind_run, print_run, bind_run, load_and_search_data_run.
    destruct (client_search L a _) as [[|item rest]|e2].
    + rewrite print_run. discriminate.
    + intros H. apply process_all_raise in H as ->. nothing_left.
    + intros [= _ <-]. nothing_left.
  - intros H. apply process_all_raise in H as ->. nothing_left.
Qed.

Lemma main_raise_leaves_nothing_witness :
  let L := Demo.libs Demo.utm Demo.failing_catalog in
  let run := NdmiCalculator.main L "farm.geojson" "2024-07-16" "2024-08-02" "out"
               Demo.world0 in
  run.1 = Raise Demo.unreachable
  /\ w_files run.2 = ∅ /\ fetches (w_trace run.2) = [].
Proof.
  intros L run. split; [vm_compute; reflexivity|].
  apply (main_raise_leaves_nothing L "farm.geojson" "2024-07-16" "2024-08-02" "out"
           Demo.world0 run.2 Demo.unreachable).
  vm_compute. reflexivity.
Defined.

(** ** [main]: a first search that finds scenes *)

(** X2. When the first search returns at least one scene, [main] makes no
    other search: it reprojects the parcel to EPSG:4326 and hands the
    scenes, in catalog order, to the loop; if that reprojection succeeds
    [main] returns normally, whatever happens to the single scenes. *)
Theorem main_first_search_nonempty
    (L : Libs) (geojson_path start_date end_date output_path : string) (w : World)
    (client : Client) (gdf gdf' : GeoDataFrame) (g : Geometry) (gs : list Geometry)
    (item : Item) (rest : list Item) :
  client_open L api_url = Ok client ->
  gpd_read_file L geojson_path = Ok gdf ->
  gdf_geometry gdf = g :: gs ->
  client_search L client (initial_query (geom_bounds L g) start_date end_date)
  = Ok (item :: rest) ->
  gdf_to_crs L gdf (Some "EPSG:4326") = Ok gdf' ->
  let run := NdmiCalculator.main L geojson_path start_date end_date output_path w in
  run = NdmiCalculator.for_items L gdf' output_path (item :: rest)
          (logs w [EvClientOpen api_url; EvReadFile geojson_path;
                   EvSearch (initial_query (geom_bounds L g) start_date end_date);
                   EvGdfToCrs (Some "EPSG:4326")])
  /\ run.1 = Ok tt
  /\ searches (w_trace run.2)
     = searches (w_trace w) ++ [initial_query (geom_bounds L g) start_date end_date].
Proof.
  intros Hc Hf Hg Hq Hcrs run.
  assert (Hrun : run = NdmiCalculator.for_items L gdf' output_path (item :: rest)
            (logs w [EvClientOpen api_url; EvReadFile geojson_path;
                     EvSearch (initial_query (geom_bounds L g) start_date end_date);
                     EvGdfToCrs (Some "EPSG:4326")])).
  { subst run. unfold NdmiCalculator.main. fold api_url.
    step. rewrite Hc. step. rewrite Hf.
    rewrite bind_run. unfold NdmiCalculator.first_bounds. rewrite Hg. cbn [mret M_ret ret].
    rewrite bind_run, load_and_search_data_run, Hq, process_all_run, Hcrs.
    norm_logs. reflexivity. }
  split; [exact Hrun|]. rewrite Hrun. split; [apply for_items_returns|].
  rewrite (trace_grows_searches _ _ (for_items_no_search L gdf' output_path _ _)).
  rewrite searches_logs. reflexivity.
Qed.

Lemma main_first_search_nonempty_witness :
  let L := Demo.libs Demo.utm Demo.july_catalog in
  let run := NdmiCalculator.main L "farm.geojson" "2024-07-16" "2024-08-02" "out"
               Demo.world0 in
  run.1 = Ok tt
  /\ searches (w_trace run.2)
     = [initial_query (77 # 1, 28 # 1, 78 # 1, 29 # 1)%Q "2024-07-16" "2024-08-02"].
Proof.
  intros L run.
  destruct (main_first_search_nonempty L "farm.geojson" "2024-07-16" "2024-08-02" "out"
              Demo.world0 {| client_url := api_url |} Demo.farm Demo.farm
              [(77 # 1, 28 # 1); (78 # 1, 28 # 1); (78 # 1, 29 # 1)]%Q []
              (Demo.scene "S2A_43RGM_0" "2024-07-20T05:36:41Z")
              [Demo.scene_without_nir "S2B_43RGM_0" "2024-07-22T05:36:39Z";
               Demo.scene "S2B_43RGM_1" "2024-07-25T05:36:39Z"])
    as (_ & Hok & Hs); try reflexivity.
  split; [exact Hok | exact Hs].
Defined.

(** ** The index, pixel by pixel *)


(** X3. The index is missing (NaN) at a pixel exactly when one of the two
    band values is not a finite number there (no-data, or an infinity), or
    both band values are zero. *)
Theorem ndmi_pixel_missing_iff (nir swir : pixel) :
  ndmi_pixel nir swir = NaN
  <-> ~ finite nir \/ ~ finite swir
      \/ exists x y : Q, nir = Num x /\ swir = Num y /\ (x == 0)%Q /\ (y == 0)%Q.
Proof.
  destruct nir as [x|a|], swir as [y|b|].
  2-9: unfold ndmi_pixel, psub; simpl;
       (split; [intros _; tauto | intros _]);
       repeat match goal with s : bool |- _ => destruct s end; reflexivity.
  unfold ndmi_pixel, psub. simpl. split.
  - destruct (Qzero_bool (Qred (x + y))) eqn:Hs; [|discriminate].
    destruct (Qzero_bool (Qred (x + Qred (- y)))) eqn:Hd; [|discriminate].
    intros _. right. right. exists x, y.
    apply Qzero_bool_true in Hs, Hd.
    rewrite Qred_correct in Hs. rewrite Qred_correct, (Qred_correct (- y)) in Hd.
    repeat split; lra.
  - intros [H | [H | (x' & y' & [= <-] & [= <-] & Hx & Hy)]]; [tauto..|].
    assert (Hs : Qzero_bool (Qred (x + y)) = true).
    { apply Qzero_bool_true. rewrite Qred_correct. lra. }
    assert (Hd : Qzero_bool (Qred (x + Qred (- y))) = true).
    { apply Qzero_bool_true. rewrite !Qred_correct. lra. }
    by rewrite Hs, Hd.
Qed.



(** ** [calculate_ndmi]: shape of the result, order of the fetches *)




(** X6. [calculate_ndmi] asks for the SWIR raster first.  If opening it
    raises, that exception is the outcome and the NIR raster is never
    requested; if it opens, both rasters are requested exactly once, SWIR
    before NIR, whatever happens afterwards. *)
Theorem calculate_ndmi_fetch_order
    (L : Libs) (item : Item) (gdf : GeoDataFrame) (w : World) (swir16 nir08 : Asset) :
  assets item !! "swir16" = Some swir16 ->
  assets item !! "nir08" = Some nir08 ->
  let run := NdmiCalculator.calculate_ndmi L item gdf w in
  (forall e : Exception,
     open_rasterio L (href swir16) = Raise e ->
     run = (Raise e, log w (EvOpenRaster (href swir16))))
  /\ (forall red : DataArray,
        open_rasterio L (href swir16) = Ok red ->
        fetches (w_trace run.2) = fetches (w_trace w) ++ [href swir16; href nir08]).
Proof.
  intros Hs Hn run. subst run. unfold NdmiCalculator.calculate_ndmi. rewrite Hs, Hn.
  split.
  - intros e He. rewrite bind_run, call_run, He. reflexivity.
  - intros red Hred. rewrite bind_run, call_run, Hred.
    do 4 (run_call; [|cbn [snd]; norm_logs; rewrite fetches_logs; reflexivity]).
    cbv beta. rewrite bind_run. case_decide.
    + rewrite call_run. destruct (rio_reproject_match L _ _);
        cbn [snd mret M_ret ret]; norm_logs; rewrite fetches_logs; reflexivity.
    + cbn [snd mret M_ret ret]. norm_logs. rewrite fetches_logs. reflexivity.
Qed.

Lemma calculate_ndmi_fetch_order_witness :
  let L := Demo.libs Demo.utm Demo.empty_catalog in
  fetches (w_trace (NdmiCalculator.calculate_ndmi L
                      (Demo.scene "S2A_43RGM" "2024-07-20T05:36:41Z")
                      Demo.farm Demo.world0).2)
  = [Demo.swir_uri; Demo.nir_uri].
Proof.
  intros L.
  assert (Hs : assets (Demo.scene "S2A_43RGM" "2024-07-20T05:36:41Z") !! "swir16"
               = Some {| href := Demo.swir_uri |}) by (vm_compute; reflexivity).
  assert (Hn : assets (Demo.scene "S2A_43RGM" "2024-07-20T05:36:41Z") !! "nir08"
               = Some {| href := Demo.nir_uri |}) by (vm_compute; reflexivity).
  pose proof (calculate_ndmi_fetch_order L _ Demo.farm Demo.world0 _ _ Hs Hn) as H.
  cbv zeta in H. destruct H as [_ Hboth].
  apply (Hboth (Demo.band Demo.utm 100)). reflexivity.
Defined.

(** ** The two variants of [calculate_ndmi] *)



(** ** Dates and file names *)

Lemma string_length_app (a b : string) :
  String.length (a +:+ b) = (String.length a + String.length b)%nat.
Proof. induction a as [|c a IH]; simpl; [reflexivity | by rewrite IH]. Qed.

Lemma string_app_inj_r (s x y : string) : x +:+ s = y +:+ s -> x = y.
Proof.
  revert y. induction x as [|a x IH]; intros [|c y] H; simpl in H.
  - reflexivity.
  - apply (f_equal String.length) in H.
    rewrite !string_length_app in H. simpl in H. rewrite ?string_length_app in H. lia.
  - apply (f_equal String.length) in H.
    rewrite !string_length_app in H. simpl in H. rewrite ?string_length_app in H. lia.
  - injection H as -> H. f_equal. by apply IH.
Qed.

Lemma output_file_name_inj (output_path d1 d2 : string) :
  NdmiCalculator.output_file_name output_path d1
  = NdmiCalculator.output_file_name output_path d2 ->
  d1 = d2.
Proof.
  unfold NdmiCalculator.output_file_name, os_path_join. simpl.
  destruct (String.eqb output_path "" || ends_with_slash output_path)%bool; intros H.
  - apply (inj (String.app output_path)) in H.
    injection H as H. change (d1 +:+ ".png" = d2 +:+ ".png") in H.
    by apply string_app_inj_r in H.
  - apply (inj (String.app output_path)) in H.
    injection H as H. change (d1 +:+ ".png" = d2 +:+ ".png") in H.
    by apply string_app_inj_r in H.
Qed.

(** X8. Scenes with different date labels never share an output file:
    the file name determines the date, and after two scenes with different
    date labels were processed successfully each figure is in its own
    file. *)
Theorem different_dates_different_files
    (L : Libs) (gdf : GeoDataFrame) (output_path : string)
    (first second : Item) (w w1 w2 : World) (d1 d2 : string) :
  date_label first = Some d1 ->
  date_label second = Some d2 ->
  d1 <> d2 ->
  NdmiCalculator.try_block L gdf output_path first w = (Ok tt, w1) ->
  NdmiCalculator.try_block L gdf output_path second w1 = (Ok tt, w2) ->
  os_path_join output_path ("ndmi_" +:+ d1 +:+ ".png")
  <> os_path_join output_path ("ndmi_" +:+ d2 +:+ ".png")
  /\ exists ndmi1 ndmi2 : DataArray,
       w_files w2 !! os_path_join output_path ("ndmi_" +:+ d1 +:+ ".png")
       = Some (NdmiCalculator.figure L ndmi1 d1)
       /\ w_files w2 !! os_path_join output_path ("ndmi_" +:+ d2 +:+ ".png")
          = Some (NdmiCalculator.figure L ndmi2 d2).
Proof.
  intros Hd1 Hd2 Hne Hfirst Hsecond.
  assert (Hpath : NdmiCalculator.output_file_name output_path d1
                  <> NdmiCalculator.output_file_name output_path d2).
  { intros H. by apply output_file_name_inj in H. }
  split; [exact Hpath|].
  destruct (try_block_ok _ _ _ _ _ _ Hfirst) as (ndmi1 & d1' & Hd1' & _ & Hf1).
  destruct (try_block_ok _ _ _ _ _ _ Hsecond) as (ndmi2 & d2' & Hd2' & _ & Hf2).
  assert (d1' = d1) as -> by congruence. assert (d2' = d2) as -> by congruence.
  exists ndmi1, ndmi2. fold (NdmiCalculator.output_file_name output_path d1).
  fold (NdmiCalculator.output_file_name output_path d2).
  rewrite Hf2, Hf1. split.
  - rewrite lookup_insert_ne by congruence. apply lookup_insert_eq.
  - apply lookup_insert_eq.
Qed.

Lemma different_dates_different_files_witness :
  let L := Demo.libs Demo.utm Demo.empty_catalog in
  let first := Demo.scene "S2A_43RGM_0" "2024-07-20T05:36:41Z" in
  let second := Demo.scene "S2B_43RGM_1" "2024-07-25T05:36:39Z" in
  let w2 := (NdmiCalculator.for_items L Demo.farm "out" [first; second] Demo.world0).2 in
  exists ndmi1 ndmi2 : DataArray,
    w_files w2 !! "out/ndmi_2024-07-20.png"
    = Some (NdmiCalculator.figure L ndmi1 "2024-07-20")
    /\ w_files w2 !! "out/ndmi_2024-07-25.png"
       = Some (NdmiCalculator.figure L ndmi2 "2024-07-25").
Proof.
  intros L first second w2.
  pose (w1 := (NdmiCalculator.try_block L Demo.farm "out" first Demo.world0).2).
  destruct (different_dates_different_files L Demo.farm "out" first second
              Demo.world0 w1 w2 "2024-07-20" "2024-07-25")
    as (_ & ndmi1 & ndmi2 & H1 & H2);
    [vm_compute; reflexivity | vm_compute; reflexivity | discriminate
    | vm_compute; reflexivity | vm_compute; reflexivity |].
  exists ndmi1, ndmi2. split; [exact H1 | exact H2].
Defined.

Lemma split_first_spec (sep : ascii) (s : string) :
  exists rest : string,
    s = split_first sep s +:+ rest
    /\ (rest = "" \/ exists r : string, rest = String sep r)
    /\ forall a b : string, split_first sep s <> a +:+ String sep b.
Proof.
  induction s as [|c s (rest & Hs & Hrest & Hno)]; cbn [split_first].
  - exists "". split; [reflexivity|]. split; [by left|].
    intros [|a0 a] b; discriminate.
  - destruct (Ascii.eqb c sep) eqn:Hc.
    + apply Ascii.eqb_eq in Hc as ->. exists (String sep s).
      split; [reflexivity|]. split; [right; by eexists|].
      intros [|a0 a] b; discriminate.
    + apply Ascii.eqb_neq in Hc. exists rest.
      split; [change (String c s = String c (split_first sep s +:+ rest)); by f_equal|].
      split; [exact Hrest|].
      intros [|a0 a] b H.
      * change (String c (split_first sep s) = String sep b) in H. congruence.
      * change (String c (split_first sep s) = String a0 (a +:+ String sep b)) in H.
        injection H as _ H. by apply Hno in H.
Qed.

(** X9. The date label of a scene is its [datetime] up to the first "T":
    the [datetime] is the label followed by nothing or by a text that
    starts with "T", and the label holds no "T".  Reading it changes
    nothing in the world. *)
Theorem item_date_before_first_T (item : Item) (w : World) (s : string) :
  properties item !! "datetime" = Some (PyStr s) ->
  exists d rest : string,
    NdmiCalculator.item_date_of item w = (Ok d, w)
    /\ s = d +:+ rest
    /\ (rest = "" \/ exists r : string, rest = String "T" r)
    /\ forall a b : string, d <> a +:+ String "T" b.
Proof.
  intros Hs. unfold NdmiCalculator.item_date_of. rewrite Hs.
  destruct (split_first_spec "T" s) as (rest & H1 & H2 & H3).
  exists (split_first "T" s), rest. split; [reflexivity|]. by repeat split.
Qed.

Lemma item_date_before_first_T_witness :
  exists d rest : string,
    NdmiCalculator.item_date_of (Demo.scene "S2A_43RGM" "2024-07-20T05:36:41Z")
      Demo.world0 = (Ok d, Demo.world0)
    /\ "2024-07-20T05:36:41Z" = d +:+ rest
    /\ (rest = "" \/ exists r : string, rest = String "T" r)
    /\ forall a b : string, d <> a +:+ String "T" b.
Proof.
  apply (item_date_before_first_T (Demo.scene "S2A_43RGM" "2024-07-20T05:36:41Z")
           Demo.world0 "2024-07-20T05:36:41Z").
  vm_compute. reflexivity.
Defined.

(** ** The loop: scenes without a usable date, status lines *)

(** X10. The date of a scene is read only after its index was computed.
    For a scene whose properties hold no [datetime], or hold [None] there,
    the rasters are fetched and the index is computed, then the lookup
    fails: the loop prints the error line for the scene and saves
    nothing. *)
Theorem scene_without_datetime
    (L : Libs) (gdf : GeoDataFrame) (output_path : string) (item : Item)
    (w w1 : World) (ndmi : DataArray) :
  NdmiCalculator.calculate_ndmi L item gdf w = (Ok ndmi, w1) ->
  properties item !! "datetime" = None
  \/ properties item !! "datetime" = Some PyNone ->
  exists msg : string,
    NdmiCalculator.process_item L gdf output_path item w
    = (Ok tt, log w1 (EvPrint ("Error processing item " +:+ item_id item
                                +:+ ": " +:+ msg)))
    /\ (properties item !! "datetime" = None -> msg = "'datetime'")
    /\ w_files w1 = w_files w.
Proof.
  intros Hcalc Hdate.
  pose proof (calculate_ndmi_files_kept L item gdf w) as Hkept.
  rewrite Hcalc in Hkept. unfold files_kept in Hkept. cbn [snd] in Hkept.
  rewrite process_item_run. unfold NdmiCalculator.try_block.
  rewrite bind_run, Hcalc, bind_run. unfold NdmiCalculator.item_date_of.
  destruct Hdate as [Hd | Hd]; rewrite Hd; eexists; (split; [reflexivity|]);
    (split; [|assumption]).
  - reflexivity.
  - intros; discriminate.
Qed.

Lemma scene_without_datetime_witness :
  let L := Demo.libs Demo.utm Demo.empty_catalog in
  let item := {| item_id := "S2A_43RGM";
                 assets := assets (Demo.scene "S2A_43RGM" "");
                 properties := ∅ |} in
  exists (msg : string) (w1 : World),
    NdmiCalculator.process_item L Demo.farm "out" item Demo.world0
    = (Ok tt, log w1 (EvPrint ("Error processing item S2A_43RGM: " +:+ msg)))
    /\ msg = "'datetime'"
    /\ fetches (w_trace w1) = [Demo.swir_uri; Demo.nir_uri]
    /\ w_files w1 = ∅.
Proof.
  intros L item.
  pose (run := NdmiCalculator.calculate_ndmi L item Demo.farm Demo.world0).
  destruct (scene_without_datetime L Demo.farm "out" item Demo.world0 run.2
              (squeezed (xr_div (xr_sub (Demo.band Demo.utm 200) (Demo.band Demo.utm 100))
                                (xr_add (Demo.band Demo.utm 200) (Demo.band Demo.utm 100)))))
    as (msg & Hrun & Hmsg & Hfiles); [vm_compute; reflexivity | left; reflexivity |].
  exists msg, run.2. split; [exact Hrun|]. split; [by apply Hmsg|].
  split; [vm_compute; reflexivity | exact Hfiles].
Defined.

Lemma prints_app (t u : list Event) : prints (t ++ u) = prints t ++ prints u.
Proof. apply omap_app. Qed.

Lemma trace_grows_prints (w w' : World) :
  trace_grows not_print w w' -> prints (w_trace w') = prints (w_trace w).
Proof.
  intros (es & -> & H). rewrite prints_app.
  assert (Hes : prints es = []).
  { induction H as [|e es He _ IH]; [reflexivity|].
    destruct e; simpl in *; try exact IH. contradiction. }
  by rewrite Hes, app_nil_r.
Qed.

Lemma calculate_ndmi_no_print (L : Libs) (item : Item) (gdf : GeoDataFrame) :
  preserves (trace_grows not_print) (NdmiCalculator.calculate_ndmi L item gdf).
Proof. unfold NdmiCalculator.calculate_ndmi. frame. Qed.

Lemma plot_and_save_no_print (L : Libs) (ndmi : DataArray) (out date : string) :
  preserves (trace_grows not_print) (NdmiCalculator.plot_and_save_ndmi L ndmi out date).
Proof. unfold NdmiCalculator.plot_and_save_ndmi. frame. Qed.

Lemma process_item_status (L : Libs) (gdf : GeoDataFrame) (out : string) (item : Item)
    (w : World) :
  exists line : string,
    prints (w_trace (NdmiCalculator.process_item L gdf out item w).2)
    = prints (w_trace w) ++ [line]
    /\ status_line item line.
Proof.
  rewrite process_item_run. unfold NdmiCalculator.try_block. rewrite bind_run.
  pose proof (trace_grows_prints _ _ (calculate_ndmi_no_print L item gdf w)) as Hcalc.
  destruct (NdmiCalculator.calculate_ndmi L item gdf w) as [[ndmi|e] w1]; cbn [snd] in *.
  2:{ eexists. split; [|right; by eexists].
      unfold log. simpl. by rewrite prints_app, Hcalc. }
  rewrite bind_run. unfold NdmiCalculator.item_date_of, status_line, date_label.
  destruct (properties item !! "datetime") as [[s|]|].
  2,3: eexists; (split; [|right; by eexists]);
       unfold log; simpl; by rewrite prints_app, Hcalc.
  cbn [mret M_ret ret]. rewrite bind_run.
  pose proof (trace_grows_prints _ _
                (plot_and_save_no_print L ndmi out (split_first "T" s) w1)) as Hplot.
  destruct (NdmiCalculator.plot_and_save_ndmi L ndmi out (split_first "T" s) w1)
    as [[[]|e] w2]; cbn [snd] in *.
  - rewrite print_run. eexists. split; [|left; eexists; split; reflexivity].
    unfold log. simpl. by rewrite prints_app, Hplot, Hcalc.
  - eexists. split; [|right; by eexists].
    unfold log. simpl. by rewrite prints_app, Hplot, Hcalc.
Qed.

(** X11. The loop of [main] prints exactly one line per scene, in catalog
    order: for each scene either the success line with its date label or
    the error line, both naming the scene's id. *)
Theorem one_status_line_per_scene
    (L : Libs) (gdf : GeoDataFrame) (output_path : string) (items : list Item)
    (w : World) :
  exists lines : list string,
    prints (w_trace (NdmiCalculator.for_items L gdf output_path items w).2)
    = prints (w_trace w) ++ lines
    /\ Forall2 status_line items lines.
Proof.
  revert w. induction items as [|item rest IH]; intros w.
  - exists []. split; [by rewrite app_nil_r | constructor].
  - rewrite for_items_cons.
    destruct (process_item_status L gdf output_path item w) as (line & Hline & Hstatus).
    destruct (IH (NdmiCalculator.process_item L gdf output_path item w).2)
      as (lines & Hlines & Hall).
    exists (line :: lines). split; [|by constructor].
    rewrite Hlines, Hline, <- app_assoc. reflexivity.
Qed.

(** ** [main]: the files of a run *)

#[export] Instance files_named_preorder (P : string -> Prop) : PreOrder (files_named P).
Proof.
  split.
  - intros w p Hp. reflexivity.
  - intros w1 w2 w3 H12 H23 p Hp. by rewrite H23, H12.
Qed.

Lemma files_named_log (P : string -> Prop) (e : Event) (w : World) :
  files_named P w (log w e).
Proof. intros p Hp. reflexivity. Qed.

Lemma files_named_write (P : string -> Prop) (path : string) (f : Figure) :
  P path -> preserves (files_named P) (write_file path f).
Proof.
  intros HP w p Hp. simpl. apply lookup_insert_ne. by intros ->.
Qed.

Ltac frame_named :=
  repeat first
    [ frame_step
    | apply files_named_log
    | apply files_named_write ].

Lemma for_items_files_named (L : Libs) (gdf : GeoDataFrame) (out : string)
    (items : list Item) :
  preserves (files_named (ndmi_png out)) (NdmiCalculator.for_items L gdf out items).
Proof.
  induction items as [|item rest IH]; cbn [NdmiCalculator.for_items].
  - frame.
  - apply preserves_bind; [tc_solve | | intros _; exact IH].
    unfold NdmiCalculator.process_item, NdmiCalculator.try_block,
      NdmiCalculator.calculate_ndmi, NdmiCalculator.item_date_of,
      NdmiCalculator.plot_and_save_ndmi, NdmiCalculator.output_file_name.
    frame_named; by eexists.
Qed.

(** X12. Whatever the catalog returns and whatever fails, a run of
    [main] creates or replaces only files of the form
    [os.path.join(output_path, "ndmi_<date>.png")]: every other path holds
    after the run what it held before. *)
Theorem main_writes_only_ndmi_png
    (L : Libs) (geojson_path start_date end_date output_path : string)
    (w : World) (p : string) :
  (forall d : string, p <> os_path_join output_path ("ndmi_" +:+ d +:+ ".png")) ->
  w_files (NdmiCalculator.main L geojson_path start_date end_date output_path w).2 !! p
  = w_files w !! p.
Proof.
  intros Hp.
  assert (H : preserves (files_named (ndmi_png output_path))
                (NdmiCalculator.main L geojson_path start_date end_date output_path)).
  { unfold NdmiCalculator.main, NdmiCalculator.first_bounds,
      NdmiCalculator.load_and_search_data, NdmiCalculator.process_all.
    frame_named; apply for_items_files_named. }
  apply (H w p). intros [d ->]. by apply (Hp d).
Qed.

Lemma main_writes_only_ndmi_png_witness :
  let L := Demo.libs Demo.utm Demo.july_catalog in
  w_files (NdmiCalculator.main L "farm.geojson" "2024-07-16" "2024-08-02" "out"
             Demo.world0).2 !! "farm.geojson"
  = w_files Demo.world0 !! "farm.geojson".
Proof.
  intros L.
  apply (main_writes_only_ndmi_png L "farm.geojson" "2024-07-16" "2024-08-02" "out"
           Demo.world0 "farm.geojson").
  intros d. vm_compute. discriminate.
Defined.

(** ** The earlier variant: its loop and its single search *)






Lemma NDMI_for_items_no_search (L : Libs) (gdf : GeoDataFrame) (out : string)
    (items : list Item) :
  preserves (trace_grows not_search) (NDMI.for_items L gdf out items).
Proof.
  induction items as [|item rest IH]; cbn [NDMI.for_items].
  - frame.
  - apply preserves_bind; [tc_solve | | intros [|]; [frame | exact IH]].
    unfold NDMI.process_item, NDMI.calculate_ndmi, NDMI.plot_and_save_ndmi.
    frame.
Qed.

Ltac no_query :=
  exists []; cbn [snd]; norm_logs; rewrite searches_logs;
  (split; [reflexivity|]); (split; [simpl; lia | constructor]).

(** X15. The earlier variant searches the catalog at most once in any
    run, with the dates it was given and the cloud-cover filter below 50;
    it has no fallback. *)
Theorem NDMI_main_single_search
    (L : Libs) (geojson_path start_date end_date output_path : string) (w : World) :
  exists qs : list Query,
    searches (w_trace (NDMI.main L geojson_path start_date end_date output_path w).2)
    = searches (w_trace w) ++ qs
    /\ (length qs <= 1)%nat
    /\ Forall (fun q => q_datetime q = start_date +:+ "/" +:+ end_date
                        /\ q_query q = [("eo:cloud_cover", [("lt", 50%Z)])]) qs.
Proof.
  unfold NDMI.main. fold api_url.
  run_call; [|no_query].
  run_call; [|no_query].
  cbv beta. rewrite bind_run. unfold NDMI.first_bounds.
  destruct (gdf_geometry a0) as [|g gs]; [cbv beta iota delta [raise]; no_query|].
  cbn [mret M_ret ret]. rewrite bind_run, NDMI_load_and_search_data_run.
  exists [initial_query (geom_bounds L g) start_date end_date].
  split; [|split; [simpl; lia | by repeat constructor]].
  destruct (client_search L a _) as [[|item rest]|e].
  - rewrite print_run. cbn [snd]. norm_logs. rewrite searches_logs. reflexivity.
  - rewrite bind_run, call_run.
    destruct (gdf_to_crs L a0 (Some "EPSG:4326")) as [gdf'|e].
    + rewrite (trace_grows_searches _ _ (NDMI_for_items_no_search L gdf' output_path _ _)).
      norm_logs. rewrite searches_logs. reflexivity.
    + cbn [snd]. norm_logs. rewrite searches_logs. reflexivity.
  - cbn [snd]. norm_logs. rewrite searches_logs. reflexivity.
Qed.

(** ** The entry point with a config file *)

(** X16. With a non-empty [--config] the [__main__] block of
    [ndmi_calculator.py] opens that file and takes the four arguments of
    [main] from its keys [geojson_path], [start_date], [end_date] and
    [output_path], [None] for a key that is missing; a file that cannot be
    loaded raises; the discrete options play no part, so two command lines
    with the same config file call [main] alike. *)
Theorem config_file_decides_arguments
    (L : Libs) (args args' : NdmiCalculator.Namespace) (w : World) (path : string) :
  NdmiCalculator.ns_config args = Some path ->
  NdmiCalculator.ns_config args' = Some path ->
  path <> "" ->
  NdmiCalculator.main_arguments L args w
  = (match json_load_file L path with
     | Ok config =>
         Ok {| NdmiCalculator.mc_geojson_path := default PyNone (config !! "geojson_path");
               NdmiCalculator.mc_start_date := default PyNone (config !! "start_date");
               NdmiCalculator.mc_end_date := default PyNone (config !! "end_date");
               NdmiCalculator.mc_output_path := default PyNone (config !! "output_path") |}
     | Raise e => Raise e
     end,
     log w (EvOpenConfig path))
  /\ NdmiCalculator.main_arguments L args' w = NdmiCalculator.main_arguments L args w.
Proof.
  intros Hcfg Hcfg' Hne.
  unfold NdmiCalculator.main_arguments, NdmiCalculator.truthy.
  rewrite Hcfg, Hcfg'. apply String.eqb_neq in Hne. rewrite Hne.
  cbv beta zeta iota delta [negb]. change (default "" (Some path)) with path.
  split; [|reflexivity].
  rewrite bind_run, call_run. destruct (json_load_file L path); reflexivity.
Qed.

Lemma config_file_decides_arguments_witness :
  let L := Demo.libs Demo.utm Demo.empty_catalog in
  exists args args' : NdmiCalculator.Namespace,
    NdmiCalculator.parse_args ["--config"; "run.json"] = Some args
    /\ NdmiCalculator.parse_args ["--config"; "run.json"; "--start_date"; "2023-05-01"]
       = Some args'
    /\ NdmiCalculator.main_arguments L args Demo.world0
       = (Ok {| NdmiCalculator.mc_geojson_path := PyNone;
                NdmiCalculator.mc_start_date := PyNone;
                NdmiCalculator.mc_end_date := PyNone;
                NdmiCalculator.mc_output_path := PyNone |},
          log Demo.world0 (EvOpenConfig "run.json"))
    /\ NdmiCalculator.main_arguments L args' Demo.world0
       = NdmiCalculator.main_arguments L args Demo.world0.
Proof.
  intros L. eexists _, _.
  split; [vm_compute; reflexivity|]. split; [vm_compute; reflexivity|].
  apply (config_file_decides_arguments L _ _ Demo.world0 "run.json");
    [reflexivity | reflexivity | discriminate].
Defined.

(** ** The loop: a status line tells the truth *)

Lemma plot_and_save_ndmi_raise (L : Libs) (ndmi : DataArray) (out date : string)
    (w w' : World) (e : Exception) :
  NdmiCalculator.plot_and_save_ndmi L ndmi out date w = (Raise e, w') ->
  w_files w' = w_files w.
Proof.
  unfold NdmiCalculator.plot_and_save_ndmi. rewrite bind_run.
  destruct (ax_imshow L ndmi); cbn [outcome]; [by intros [= _ <-]|].
  rewrite bind_run, call_run.
  destruct (plt_savefig L _ _); cbn [outcome]; [by intros [= _ <-]|].
  discriminate.
Qed.

Lemma try_block_raise (L : Libs) (gdf : GeoDataFrame) (out : string) (item : Item)
    (w w' : World) (e : Exception) :
  NdmiCalculator.try_block L gdf out item w = (Raise e, w') ->
  w_files w' = w_files w.
Proof.
  unfold NdmiCalculator.try_block. rewrite bind_run.
  pose proof (calculate_ndmi_files_kept L item gdf w) as Hkept.
  unfold files_kept in Hkept.
  destruct (NdmiCalculator.calculate_ndmi L item gdf w) as [[ndmi|e1] w1];
    cbn [snd] in Hkept; [|by intros [= _ <-]].
  rewrite bind_run. unfold NdmiCalculator.item_date_of.
  destruct (properties item !! "datetime") as [[s|]|];
    [|by intros [= _ <-]..].
  cbn [mret M_ret ret]. rewrite bind_run.
  destruct (NdmiCalculator.plot_and_save_ndmi L ndmi out (split_first "T" s) w1)
    as [[[]|e2] w2] eqn:Hplot.
  - rewrite print_run. discriminate.
  - intros [= _ <-]. apply plot_and_save_ndmi_raise in Hplot. congruence.
Qed.

(** X17. For every scene the loop of [main] ends in one of two ways: the
    success line was printed last and the scene's figure is in its output
    file, or the error line was printed last and no file was written or
    replaced. *)
Theorem status_line_truthful
    (L : Libs) (gdf : GeoDataFrame) (output_path : string) (item : Item) (w : World) :
  exists (w1 : World) (line : string),
    NdmiCalculator.process_item L gdf output_path item w = (Ok tt, log w1 (EvPrint line))
    /\ ((exists (d : string) (ndmi : DataArray),
           date_label item = Some d
           /\ line = "NDMI calculated and saved for item " +:+ item_id item
                     +:+ " on " +:+ d
           /\ w_files w1
              = <[os_path_join output_path ("ndmi_" +:+ d +:+ ".png")
                  := NdmiCalculator.figure L ndmi d]> (w_files w))
        \/ (exists e : Exception,
              line = "Error processing item " +:+ item_id item +:+ ": " +:+ exn_msg e
              /\ w_files w1 = w_files w)).
Proof.
  rewrite process_item_run.
  destruct (NdmiCalculator.try_block L gdf output_path item w) as [[[]|e] w'] eqn:Hblock.
  - destruct (try_block_ok _ _ _ _ _ _ Hblock) as (ndmi & d & Hd & _ & Hfiles).
    revert Hblock. unfold NdmiCalculator.try_block. rewrite bind_run.
    destruct (NdmiCalculator.calculate_ndmi L item gdf w) as [[ndmi'|e1] w1];
      [|discriminate].
    rewrite bind_run. unfold NdmiCalculator.item_date_of.
    pose proof Hd as Hd'. unfold date_label in Hd'.
    destruct (properties item !! "datetime") as [[s|]|]; try discriminate.
    injection Hd' as Hd'.
    cbn [mret M_ret ret]. rewrite bind_run.
    destruct (NdmiCalculator.plot_and_save_ndmi L ndmi' output_path (split_first "T" s) w1)
      as [[[]|e2] w2]; [|discriminate].
    rewrite print_run. intros [= <-].
    eexists _, _. split; [reflexivity|]. left.
    exists d, ndmi. split; [exact Hd|]. split; [by rewrite Hd'|].
    exact Hfiles.
  - apply try_block_raise in Hblock.
    eexists _, _. split; [reflexivity|]. right. by exists e.
Qed.

(** ** The mean shown in the title *)

Lemma psum_bounds (lo hi : Q) (l : list pixel) :
  Forall (fun p => exists q : Q, p = Num q /\ (lo <= q <= hi)%Q) l ->
  exists t : Q,
    psum l = Num t
    /\ (inject_Z (Z.of_nat (length l)) * lo <= t
        <= inject_Z (Z.of_nat (length l)) * hi)%Q.
Proof.
  induction 1 as [|p l (q & -> & Hq) _ (t & Ht & Hbounds)].
  - exists 0%Q. split; [reflexivity|].
    change (inject_Z (Z.of_nat (length (@nil pixel)))) with 0%Q. lra.
  - exists (Qred (q + t)). split; [cbn [psum foldr]; fold (psum l); by rewrite Ht|].
    rewrite Qred_correct. cbn [length].
    rewrite Nat2Z.inj_succ. unfold Z.succ. rewrite inject_Z_plus.
    change (inject_Z 1) with 1%Q. lra.
Qed.

(** X18. The mean that [plot_and_save_ndmi] puts in the title ignores the
    no-data pixels: if every pixel is NaN the title shows the formatted
    NaN, and if the pixels that hold a value all lie between two bounds,
    for the index -1 and 1, and there is at least one, the title shows a
    number between the same bounds. *)
Theorem title_mean_range (L : Libs) (ndmi : DataArray) (date : string) :
  (Forall (eq NaN) (da_values ndmi) ->
   fig_title (NdmiCalculator.figure L ndmi date)
   = "NDMI - " +:+ date +:+ newline +:+ "Mean NDMI: " +:+ format_2f L NaN)
  /\ (forall lo hi : Q,
        Forall (fun p => p = NaN \/ exists q : Q, p = Num q /\ (lo <= q <= hi)%Q)
          (da_values ndmi) ->
        Exists finite (da_values ndmi) ->
        exists m : Q,
          fig_title (NdmiCalculator.figure L ndmi date)
          = "NDMI - " +:+ date +:+ newline +:+ "Mean NDMI: " +:+ format_2f L (Num m)
          /\ (lo <= m <= hi)%Q).
Proof.
  unfold NdmiCalculator.figure. cbn [fig_title]. unfold xr_mean, not_nan_values.
  split.
  - intros Hall.
    assert (Hnone : filter (fun p => is_nan p = false) (da_values ndmi) = []).
    { induction Hall as [|p l <- _ IH]; [reflexivity|].
      rewrite filter_cons_False by (simpl; congruence). exact IH. }
    rewrite Hnone. reflexivity.
  - intros lo hi Hall Hsome.
    set (vs := filter (fun p => is_nan p = false) (da_values ndmi)).
    assert (Hvs : Forall (fun p => exists q : Q, p = Num q /\ (lo <= q <= hi)%Q) vs).
    { apply Forall_forall. intros p Hp. apply list_elem_of_filter in Hp as [Hnan Hp].
      rewrite Forall_forall in Hall. destruct (Hall p Hp) as [-> | H]; [discriminate | exact H]. }
    assert (Hlen : (0 < length vs)%nat).
    { apply Exists_exists in Hsome as (p & Hp & Hfin).
      assert (Hin : p ∈ vs).
      { apply list_elem_of_filter. split; [by destruct p | exact Hp]. }
      destruct vs; [by apply elem_of_nil in Hin | simpl; lia]. }
    destruct (psum_bounds lo hi vs Hvs) as (t & Ht & Hlo & Hhi).
    rewrite Ht. cbn [pdiv].
    assert (Hn : (0 < inject_Z (Z.of_nat (length vs)))%Q).
    { change 0%Q with (inject_Z 0). rewrite <- Zlt_Qlt. lia. }
    assert (Hz : Qzero_bool (inject_Z (Z.of_nat (length vs))) = false).
    { apply Qzero_bool_false. lra. }
    rewrite Hz. eexists. split; [reflexivity|].
    rewrite Qred_correct. split.
    + apply Qle_shift_div_l; [exact Hn | lra].
    + apply Qle_shift_div_r; [exact Hn | lra].
Qed.

Lemma title_mean_range_witness :
  let L := Demo.libs Demo.utm Demo.empty_catalog in
  let ndmi := {| da_crs := Some Demo.utm; da_shape := [2; 2]%nat;
                 da_values := [Num (1 # 3); NaN; Num (1 # 2); Num (2 # 3)] |} in
  exists m : Q,
    fig_title (NdmiCalculator.figure L ndmi "2024-07-20")
    = "NDMI - 2024-07-20" +:+ newline +:+ "Mean NDMI: " +:+ format_2f L (Num m)
    /\ (- (1) <= m <= 1)%Q.
Proof.
  intros L ndmi.
  destruct (title_mean_range L ndmi "2024-07-20") as [_ Hrange].
  apply (Hrange (- (1))%Q 1%Q).
  - subst ndmi. cbn [da_values].
    repeat (constructor;
              [first [left; reflexivity
                     | right; eexists; split; [reflexivity | split; discriminate]]|]).
    constructor.
  - subst ndmi. cbn [da_values]. constructor. exact I.
Defined.

(** ** The output directory *)

Lemma ends_with_slash_app (s : string) : ends_with_slash (s +:+ "/") = true.
Proof.
  unfold ends_with_slash. rewrite string_length_app. simpl.
  replace (String.length s + 1 - 1)%nat with (String.length s) by lia.
  induction s as [|c s IH]; [reflexivity|]. exact IH.
Qed.

Lemma string_app_assoc (a b c : string) : (a +:+ b) +:+ c = a +:+ b +:+ c.
Proof.
  induction a as [|x a IH]; [reflexivity|].
  change (String x ((a +:+ b) +:+ c) = String x (a +:+ b +:+ c)). by rewrite IH.
Qed.

(** X19. A trailing slash on the output directory makes no difference to
    the file that is written, and with an empty output directory the file
    name stands alone, so the file goes to the current directory. *)
Theorem output_directory_trailing_slash (output_path date : string) :
  (output_path <> "" ->
   NdmiCalculator.output_file_name (output_path +:+ "/") date
   = output_path +:+ "/" +:+ "ndmi_" +:+ date +:+ ".png"
   /\ (ends_with_slash output_path = false ->
       NdmiCalculator.output_file_name (output_path +:+ "/") date
       = NdmiCalculator.output_file_name output_path date))
  /\ NdmiCalculator.output_file_name "" date = "ndmi_" +:+ date +:+ ".png".
Proof.
  split; [|reflexivity].
  intros Hne. unfold NdmiCalculator.output_file_name, os_path_join.
  change (String.prefix "/" ("ndmi_" +:+ date +:+ ".png")) with false. cbv iota.
  rewrite ends_with_slash_app, orb_true_r. split; [apply string_app_assoc|].
  intros ->. apply String.eqb_neq in Hne. rewrite Hne. apply string_app_assoc.
Qed.

Lemma output_directory_trailing_slash_witness :
  NdmiCalculator.output_file_name ("out" +:+ "/") "2024-07-20"
  = NdmiCalculator.output_file_name "out" "2024-07-20".
Proof.
  destruct (output_directory_trailing_slash "out" "2024-07-20") as [Hslash _].
  destruct Hslash as [_ Hsame]; [discriminate|].
  apply Hsame. reflexivity.
Defined.

(** ** The order of the two bands *)

Lemma Qle_bool_false (a b : Q) : Qle_bool a b = false <-> (b < a)%Q.
Proof.
  split; intros H.
  - destruct (Qlt_le_dec b a) as [Hlt | Hle]; [exact Hlt|].
    apply Qle_bool_iff in Hle. congruence.
  - destruct (Qle_bool a b) eqn:E; [|reflexivity].
    apply Qle_bool_iff in E. lra.
Qed.

(** X20. The index depends on which band is subtracted from which:
    exchanging the NIR and the SWIR value negates it, at every pixel and
    for the special values too. *)
Theorem ndmi_pixel_swap (nir swir : pixel) :
  ndmi_pixel swir nir = popp (ndmi_pixel nir swir).
Proof.
  destruct nir as [x|a|], swir as [y|b|].
  2-9: unfold ndmi_pixel, psub; simpl;
       repeat match goal with s : bool |- _ => destruct s end; reflexivity.
  unfold ndmi_pixel, psub. simpl.
  destruct (Qzero_bool (Qred (x + y))) eqn:Hxy;
    destruct (Qzero_bool (Qred (y + x))) eqn:Hyx.
  - destruct (Qzero_bool (Qred (x + Qred (- y)))) eqn:Hd;
      destruct (Qzero_bool (Qred (y + Qred (- x)))) eqn:Hd'.
    + reflexivity.
    + apply Qzero_bool_true in Hd. apply Qzero_bool_false in Hd'.
      rewrite Qred_correct, (Qred_correct (- y)) in Hd.
      rewrite Qred_correct, (Qred_correct (- x)) in Hd'. exfalso. apply Hd'. lra.
    + apply Qzero_bool_true in Hd'. apply Qzero_bool_false in Hd.
      rewrite Qred_correct, (Qred_correct (- y)) in Hd.
      rewrite Qred_correct, (Qred_correct (- x)) in Hd'. exfalso. apply Hd. lra.
    + simpl. f_equal. unfold Qneg_bool. f_equal.
      apply Qzero_bool_false in Hd.
      rewrite Qred_correct, (Qred_correct (- y)) in Hd.
      destruct (Qle_bool 0 (Qred (y + Qred (- x)))) eqn:H1;
        destruct (Qle_bool 0 (Qred (x + Qred (- y)))) eqn:H2; try reflexivity.
      * apply Qle_bool_iff in H1, H2.
        rewrite Qred_correct, (Qred_correct (- x)) in H1.
        rewrite Qred_correct, (Qred_correct (- y)) in H2.
        exfalso. apply Hd. lra.
      * apply Qle_bool_false in H1, H2.
        rewrite Qred_correct, (Qred_correct (- x)) in H1.
        rewrite Qred_correct, (Qred_correct (- y)) in H2. lra.
  - apply Qzero_bool_true in Hxy. apply Qzero_bool_false in Hyx.
    rewrite Qred_correct in Hxy, Hyx. exfalso. apply Hyx. lra.
  - apply Qzero_bool_true in Hyx. apply Qzero_bool_false in Hxy.
    rewrite Qred_correct in Hxy, Hyx. exfalso. apply Hxy. lra.
  - simpl. f_equal. apply Qred_complete.
    apply Qzero_bool_false in Hxy. rewrite Qred_correct in Hxy.
    rewrite !Qred_correct. field. exact Hxy.
Qed.
